(** * A greeter HTTP server (app/app.py): embedding and verified properties

    The program is a Python script: it resolves a listen port from the
    environment, starts an [HTTPServer] with the request handler class
    [SimpleHandler], and serves forever.  The file has three layers:

    - [Py]: the builtins the script and the library code under it use
      ([int], [str], [repr], [%], [str.lower], [html.escape], UTF-8);
    - the platform: the process state with its effects ([print],
      [os.environ.get], the socket layer), and the parts of [socketserver]
      and [http.server] (CPython 3.11) that the script inherits;
    - the script itself: [PORT], [do_GET], [log_message], [run_server].

    Python [str] values are modelled as [string]; the character with code [n]
    stands for the code point [n], so the model covers text whose code points
    are below 256.  [bytes] values are [string] too, one character per octet. *)

From Stdlib Require Import ZArith NArith String Ascii List Lia Bool.
From stdpp Require Import gmap strings list.

Open Scope string_scope.
Open Scope Z_scope.

(** ** Python builtins *)

Module Py.

(** The exception classes that occur. *)
Inductive exception : Type :=
| ValueError
| TypeError
| NameError
| AttributeError
| OverflowError
| OSError (errno : Z).

(** The two kinds of object the script passes around. *)
Inductive value : Type :=
| VStr (s : string)
| VInt (n : Z).

Definition bytes : Type := string.

Definition ord (c : ascii) : Z := Z.of_N (N_of_ascii c).

(** What [int()] skips around a literal: the C locale's blanks, and the
    code points above 127 that Unicode classes as white space (NEL and the
    no-break space are the only two below 256). *)
Definition int_isspace (c : ascii) : bool :=
  let n := ord c in
  ((9 <=? n) && (n <=? 13)) || (n =? 32) || (n =? 133) || (n =? 160).

Definition digit_value (c : ascii) : option Z :=
  let n := ord c in
  if (48 <=? n) && (n <=? 57) then Some (n - 48) else None.

Fixpoint skip_spaces (s : string) : string :=
  match s with
  | String c s' => if int_isspace c then skip_spaces s' else s
  | EmptyString => s
  end.

(** The digit loop of an integer literal in base 10: digits, with single
    underscores between them.  Returns the value read, the number of
    digits, and what follows; [None] on a doubled or trailing underscore. *)
Fixpoint scan_digits (s : string) (prev_underscore : bool) (acc : Z) (digits : N)
  : option (Z * N * string) :=
  match s with
  | String c s' =>
      match digit_value c with
      | Some d => scan_digits s' false (10 * acc + d) (digits + 1)
      | None =>
          if Ascii.eqb c "_" then
            if prev_underscore then None else scan_digits s' true acc digits
          else if prev_underscore then None else Some (acc, digits, s)
      end
  | EmptyString => if prev_underscore then None else Some (acc, digits, s)
  end.

(** [sys.int_info.default_max_str_digits]: the limit of an interpreter
    started with its defaults (started with another limit it is outside the
    model). *)
Definition max_str_digits : N := 4300.

(** [int(s)] for a [str]: blanks, an optional sign, the digits, blanks. *)
Definition int_of_str (s : string) : exception + Z :=
  let s1 := skip_spaces s in
  let '(negative, s2) :=
    match s1 with
    | String "+" r => (false, r)
    | String "-" r => (true, r)
    | _ => (false, s1)
    end in
  match s2 with
  | String "_" _ => inl ValueError
  | _ =>
      match scan_digits s2 false 0 0 with
      | None => inl ValueError
      | Some (acc, digits, rest) =>
          if (digits =? 0)%N then inl ValueError
          else if (max_str_digits <? digits)%N then inl ValueError
          else
            match skip_spaces rest with
            | EmptyString => inr (if negative then - acc else acc)
            | String _ _ => inl ValueError
            end
      end
  end.

(** [int(x)]: an [int] is returned as it is, a [str] is parsed. *)
Definition int (x : value) : exception + Z :=
  match x with
  | VInt n => inr n
  | VStr s => int_of_str s
  end.

Definition digit_char (d : Z) : ascii := ascii_of_N (Z.to_N (48 + d)).

(** The decimal digits of [n >= 0], most significant first, put in front
    of [acc]. *)
Fixpoint digits_of (fuel : nat) (n : Z) (acc : string) : string :=
  let acc' := String (digit_char (n mod 10)) acc in
  match fuel with
  | O => acc'
  | S fuel' => if n <? 10 then acc' else digits_of fuel' (n / 10) acc'
  end.

(** [str(n)] for an [int]. *)
Definition str_of_int (n : Z) : string :=
  if n <? 0 then String "-" (digits_of (Z.to_nat (- n)) (- n) "")
  else digits_of (Z.to_nat n) n "".

(** [str(x)]. *)
Definition str (x : value) : string :=
  match x with
  | VStr s => s
  | VInt n => str_of_int n
  end.

Definition chr (n : Z) : ascii := ascii_of_N (Z.to_N n).

(** The double quote, as a character and as a text. *)
Definition quotation_mark : ascii := "034"%char.
Definition QUOTE : string := String quotation_mark "".

Definition hex_digit (d : Z) : ascii :=
  if d <? 10 then chr (48 + d) else chr (87 + d).

(** [str.isprintable] on one character: the code points below 256 that
    [repr] writes as they are. *)
Definition isprintable (c : ascii) : bool :=
  let n := ord c in
  ((32 <=? n) && (n <=? 126)) || ((161 <=? n) && negb (n =? 173)).

Fixpoint contains (c : ascii) (s : string) : bool :=
  match s with
  | String c' s' => Ascii.eqb c c' || contains c s'
  | EmptyString => false
  end.

Fixpoint repr_body (quote : ascii) (s : string) : string :=
  match s with
  | EmptyString => ""
  | String c s' =>
      let n := ord c in
      (if Ascii.eqb c quote || Ascii.eqb c "\" then String "\" (String c "")
       else if n =? 9 then "\t"
       else if n =? 10 then "\n"
       else if n =? 13 then "\r"
       else if isprintable c then String c ""
       else String "\" (String "x" (String (hex_digit (n / 16))
              (String (hex_digit (n mod 16)) ""))))
      ++ repr_body quote s'
  end.

(** [repr(s)] for a [str]: single quotes, unless the text has a single
    quote and no double quote. *)
Definition repr_str (s : string) : string :=
  let quote : ascii :=
    if contains "'" s && negb (contains quotation_mark s) then quotation_mark else "'"%char in
  String quote (repr_body quote s ++ String quote "").

Definition repr (x : value) : string :=
  match x with
  | VStr s => repr_str s
  | VInt n => str_of_int n
  end.

(** [format % args], for the conversions [%s], [%d], [%r] and [%%].  A
    conversion takes the next argument ([TypeError] when none is left) and
    then looks at its character ([ValueError] when it is no conversion).
    Flags, widths, precisions and the other conversion types are not
    modelled. *)
Fixpoint format_percent (format : string) (args : list value) : exception + string :=
  match format with
  | EmptyString =>
      match args with
      | [] => inr ""
      | _ :: _ => inl TypeError
      end
  | String "%" EmptyString => inl ValueError
  | String "%" (String c rest) =>
      if Ascii.eqb c "%" then
        match format_percent rest args with
        | inr t => inr (String "%" t)
        | inl e => inl e
        end
      else
        match args with
        | [] => inl TypeError
        | a :: args' =>
            match (if Ascii.eqb c "s" then inr (str a)
                   else if Ascii.eqb c "r" then inr (repr a)
                   else if Ascii.eqb c "d" then
                     match a with
                     | VInt n => inr (str_of_int n)
                     | VStr _ => inl TypeError
                     end
                   else inl ValueError) with
            | inl e => inl e
            | inr piece =>
                match format_percent rest args' with
                | inr t => inr (piece ++ t)
                | inl e => inl e
                end
            end
        end
  | String c rest =>
      match format_percent rest args with
      | inr t => inr (String c t)
      | inl e => inl e
      end
  end.

(** [str.lower] on code points below 256. *)
Definition lower_char (c : ascii) : ascii :=
  let n := ord c in
  if ((65 <=? n) && (n <=? 90)) || ((192 <=? n) && (n <=? 222) && negb (n =? 215))
  then chr (n + 32) else c.

Fixpoint lower (s : string) : string :=
  match s with
  | EmptyString => ""
  | String c s' => String (lower_char c) (lower s')
  end.

(** [s.encode('UTF-8')] on code points below 256. *)
Fixpoint encode_utf8 (s : string) : bytes :=
  match s with
  | EmptyString => ""
  | String c s' =>
      let n := ord c in
      if n <? 128 then String c (encode_utf8 s')
      else String (chr (192 + n / 64)) (String (chr (128 + n mod 64)) (encode_utf8 s'))
  end.

(** [len(b)]. *)
Definition len (b : string) : Z := Z.of_nat (String.length b).

(** [html.escape(s, quote=False)]. *)
Fixpoint html_escape (s : string) : string :=
  match s with
  | EmptyString => ""
  | String c s' =>
      (if Ascii.eqb c "&" then "&amp;"
       else if Ascii.eqb c "<" then "&lt;"
       else if Ascii.eqb c ">" then "&gt;"
       else String c "") ++ html_escape s'
  end.

End Py.

Import Py.

(** ** State and effects

    A computation runs on a state [S]; it ends with a value or with a raised
    exception, and either way leaves a state behind. *)

Definition M (S A : Type) : Type := S -> (exception + A) * S.

#[export] Instance M_ret {S} : MRet (M S) := fun A a s => (inr a, s).

#[export] Instance M_bind {S} : MBind (M S) := fun A B f m s =>
  match m s with
  | (inr a, s') => f a s'
  | (inl e, s') => (inl e, s')
  end.

Definition raise {S A} (e : exception) : M S A := fun s => (inl e, s).

Definition gets {S A} (f : S -> A) : M S A := fun s => (inr (f s), s).

Definition modify {S} (f : S -> S) : M S unit := fun s => (inr tt, f s).

(** An [exception + A] result of a pure builtin, raised or returned. *)
Definition lift_result {S A} (r : exception + A) : M S A := fun s => (r, s).

(** What the process asks of its surroundings, in order. *)
Inductive event : Type :=
| EnvironGet (key : string)
| SocketBind (host : string) (port : Z).

(** The process: the script's module globals and the platform around it.
    [kernel_listen] is the kernel's answer when a listening TCP socket is
    requested on all interfaces at a port (bind, then listen): an errno, or
    the port number the socket ends up on. *)
Record State : Type := {
  PORT : option Z;
  environ : gmap string string;
  kernel_listen : Z -> Z + Z;
  clock : string;
  python_version : string;
  stdout : string;
  trace : list event
}.

Definition set_PORT (n : Z) (st : State) : State :=
  {| PORT := Some n; environ := environ st; kernel_listen := kernel_listen st;
     clock := clock st; python_version := python_version st;
     stdout := stdout st; trace := trace st |}.

Definition write_stdout (text : string) (st : State) : State :=
  {| PORT := PORT st; environ := environ st; kernel_listen := kernel_listen st;
     clock := clock st; python_version := python_version st;
     stdout := stdout st ++ text; trace := trace st |}.

Definition record (ev : event) (st : State) : State :=
  {| PORT := PORT st; environ := environ st; kernel_listen := kernel_listen st;
     clock := clock st; python_version := python_version st;
     stdout := stdout st; trace := trace st ++ [ev] |}.

(** The line end. *)
Definition LF : string := String (chr 10) "".

(** [print(text)]; standard output is taken to accept any text. *)
Definition print (text : string) : M State unit :=
  modify (write_stdout (text ++ LF)).

(** [os.environ.get(key, default)]. *)
Definition os_environ_get (key : string) (default : value) : M State value :=
  _ ← modify (record (EnvironGet key));
  env ← gets environ;
  match env !! key with
  | Some s => mret (VStr s)
  | None => mret default
  end.

(** Reading the global [PORT]. *)
Definition global_PORT : M State Z :=
  p ← gets PORT;
  match p with
  | Some n => mret n
  | None => raise NameError
  end.

(** ** socketserver.TCPServer and http.server.HTTPServer *)

Record HTTPServer : Type := {
  server_port : Z
}.

(** [socket.bind(address)] followed by [socket.listen()]: the port must be in
    0-65535 before the kernel is asked. *)
Definition socket_bind_listen (address : string * Z) : M State Z :=
  let '(host, port) := address in
  if (0 <=? port) && (port <=? 65535) then
    _ ← modify (record (SocketBind host port));
    answer ← gets (fun st => kernel_listen st port);
    match answer with
    | inl errno => raise (OSError errno)
    | inr bound => mret bound
    end
  else raise OverflowError.

(** [HTTPServer(server_address, RequestHandlerClass)]: [server_bind] and
    [server_activate]; what they raise is raised again by the constructor. *)
Definition HTTPServer_init (address : string * Z) : M State HTTPServer :=
  bound ← socket_bind_listen address;
  mret {| server_port := bound |}.

(** ** http.server.BaseHTTPRequestHandler

    A handler object is made for each accepted connection.  The request
    attributes below are the ones [parse_request] sets from the request line
    and the header block.  Reading and parsing the bytes is the library's own
    business: the model starts where [parse_request] has returned true. *)

Record Request : Type := {
  client_address : string * Z;
  requestline : string;
  command : string;
  path : string;
  request_version : string;
  headers : list (string * string)
}.

(** [self.request_version == 'HTTP/0.9']: the request came in the old form,
    with no protocol version on its line (or with that one). *)
Definition HTTP_0_9 (r : Request) : bool := String.eqb (request_version r) "HTTP/0.9".

(** What the handler puts on the connection, piece by piece: the lines of
    the response head, collected in [_headers_buffer] and written out by
    [flush_headers], and the data written to [wfile] directly.  For a
    request in the HTTP/0.9 form the library buffers no head line at all.
    The pieces are kept as they are handed over; how the library spells
    them as bytes is not modelled. *)
Inductive header_line : Type :=
| StatusLine (version : string) (code : Z) (message : string)
| HeaderLine (keyword value : string)
| BlankLine.

Inductive chunk : Type :=
| Head (lines : list header_line)
| Body (data : bytes).

Record Handler : Type := {
  request : Request;
  close_connection : bool;
  headers_buffer : option (list header_line);
  wfile : list chunk
}.

Record HandlerState : Type := {
  self : Handler;
  process : State
}.

Definition H (A : Type) : Type := M HandlerState A.

(** A computation on the process, run from inside a handler. *)
Definition in_process {A} (m : M State A) : H A := fun hs =>
  let '(r, st) := m (process hs) in
  (r, {| self := self hs; process := st |}).

Definition on_self (f : Handler -> Handler) : H unit :=
  modify (fun hs => {| self := f (self hs); process := process hs |}).

Definition set_close_connection (b : bool) (h : Handler) : Handler :=
  {| request := request h; close_connection := b;
     headers_buffer := headers_buffer h; wfile := wfile h |}.

Definition set_headers_buffer (buf : option (list header_line)) (h : Handler) : Handler :=
  {| request := request h; close_connection := close_connection h;
     headers_buffer := buf; wfile := wfile h |}.

(** [self.wfile.write(data)] on the handler object. *)
Definition wfile_append (c : chunk) (h : Handler) : Handler :=
  {| request := request h; close_connection := close_connection h;
     headers_buffer := headers_buffer h; wfile := wfile h ++ [c] |}.

Definition wfile_write (data : bytes) : H unit := on_self (wfile_append (Body data)).

Definition protocol_version : string := "HTTP/1.0".
Definition server_version : string := "BaseHTTP/0.6".
Definition error_content_type : string := "text/html;charset=utf-8".

(** The rows of [responses] (http.HTTPStatus) for the codes this server
    sends: short message and explanation. *)
Definition responses (code : Z) : option (string * string) :=
  if code =? 200 then Some ("OK", "Request fulfilled, document follows")
  else if code =? 501 then Some ("Not Implemented", "Server does not support this operation")
  else None.

(** [DEFAULT_ERROR_MESSAGE % {'code': ..., 'message': ..., 'explain': ...}]. *)
Definition error_message_format (code : Z) (message explain : string) : string :=
  "<!DOCTYPE HTML>" ++ LF ++
  "<html lang=" ++ QUOTE ++ "en" ++ QUOTE ++ ">" ++ LF ++
  "    <head>" ++ LF ++
  "        <meta charset=" ++ QUOTE ++ "utf-8" ++ QUOTE ++ ">" ++ LF ++
  "        <title>Error response</title>" ++ LF ++
  "    </head>" ++ LF ++
  "    <body>" ++ LF ++
  "        <h1>Error response</h1>" ++ LF ++
  "        <p>Error code: " ++ str_of_int code ++ "</p>" ++ LF ++
  "        <p>Message: " ++ message ++ ".</p>" ++ LF ++
  "        <p>Error code explanation: " ++ str_of_int code ++ " - " ++ explain ++ ".</p>" ++ LF ++
  "    </body>" ++ LF ++
  "</html>" ++ LF.

Definition address_string : H string :=
  gets (fun hs => fst (client_address (request (self hs)))).

Definition version_string : H string :=
  gets (fun hs => server_version ++ " " ++ "Python/" ++ python_version (process hs)).

(** [email.utils.formatdate(time.time(), usegmt=True)], read off the clock. *)
Definition date_time_string : H string :=
  gets (fun hs => clock (process hs)).

Definition buffer_append (line : header_line) (h : Handler) : Handler :=
  set_headers_buffer (Some (default [] (headers_buffer h) ++ [line])%list) h.

Definition send_response_only (code : Z) (message : option string) : H unit :=
  old ← gets (fun hs => HTTP_0_9 (request (self hs)));
  if negb old then
    let message :=
      match message with
      | Some m => m
      | None => match responses code with Some (short, _) => short | None => "" end
      end in
    on_self (buffer_append (StatusLine protocol_version code message))
  else mret tt.

Definition send_header (keyword value : string) : H unit :=
  old ← gets (fun hs => HTTP_0_9 (request (self hs)));
  _ ← (if negb old then on_self (buffer_append (HeaderLine keyword value)) else mret tt);
  if String.eqb (lower keyword) "connection" then
    if String.eqb (lower value) "close" then on_self (set_close_connection true)
    else if String.eqb (lower value) "keep-alive" then on_self (set_close_connection false)
    else mret tt
  else mret tt.

Definition flush_headers : H unit :=
  buf ← gets (fun hs => headers_buffer (self hs));
  match buf with
  | Some lines =>
      _ ← on_self (wfile_append (Head lines));
      on_self (set_headers_buffer (Some []))
  | None => mret tt
  end.

Definition end_headers : H unit :=
  old ← gets (fun hs => HTTP_0_9 (request (self hs)));
  if negb old then
    buf ← gets (fun hs => headers_buffer (self hs));
    match buf with
    | Some _ =>
        _ ← on_self (buffer_append BlankLine);
        flush_headers
    | None => raise AttributeError
    end
  else mret tt.

Section BaseHTTPRequestHandler.

(** The methods a subclass supplies: [self.log_message], which the base
    class calls for every log entry, and the [do_<command>] methods that
    [getattr(self, 'do_' + command)] finds. *)
Variable log_message : string -> list value -> H unit.
Variable do_method : string -> option (H unit).

Definition log_request (code : Z) : H unit :=
  line ← gets (fun hs => requestline (request (self hs)));
  log_message (QUOTE ++ "%s" ++ QUOTE ++ " %s %s") [VStr line; VStr (str (VInt code)); VStr "-"].

Definition log_error (format : string) (args : list value) : H unit :=
  log_message format args.

Definition send_response (code : Z) (message : option string) : H unit :=
  _ ← log_request code;
  _ ← send_response_only code message;
  server ← version_string;
  _ ← send_header "Server" server;
  date ← date_time_string;
  send_header "Date" date.

Definition send_error (code : Z) (message explain : option string) : H unit :=
  let '(shortmsg, longmsg) := default ("???", "???") (responses code) in
  let message := default shortmsg message in
  let explain := default longmsg explain in
  _ ← log_error "code %d, message %s" [VInt code; VStr message];
  _ ← send_response code (Some message);
  _ ← send_header "Connection" "close";
  let body : option bytes :=
    if (200 <=? code) && negb ((code =? 204) || (code =? 205) || (code =? 304)) then
      Some (encode_utf8
              (error_message_format code (html_escape message) (html_escape explain)))
    else None in
  _ ← match body with
      | Some b =>
          _ ← send_header "Content-Type" error_content_type;
          send_header "Content-Length" (str (VInt (len b)))
      | None => mret tt
      end;
  _ ← end_headers;
  cmd ← gets (fun hs => command (request (self hs)));
  match body with
  | Some b =>
      if negb (String.eqb cmd "HEAD") && negb (String.eqb b "") then wfile_write b
      else mret tt
  | None => mret tt
  end.

(** [handle_one_request], from the point where the request is parsed:
    dispatch on the method name. *)
Definition handle_one_request : H unit :=
  cmd ← gets (fun hs => command (request (self hs)));
  let mname := "do_" ++ cmd in
  match do_method mname with
  | None =>
      text ← lift_result (format_percent "Unsupported method (%r)" [VStr cmd]);
      send_error 501 (Some text) None
  | Some method => method
  end.

(** [handle]: one request, and more only while [close_connection] is
    false.  With [protocol_version] at HTTP/1.0 the parser leaves it true,
    so a connection carries the one request modelled here. *)
Definition handle : H unit :=
  _ ← on_self (set_close_connection true);
  handle_one_request.

End BaseHTTPRequestHandler.

(** ** app/app.py *)

(** [class SimpleHandler(BaseHTTPRequestHandler)]: the two methods it
    defines.  [log_message] overrides the base class's; the calls that
    [do_GET] makes on [self] are the base class's, with that override. *)

Definition log_message (format : string) (args : list value) : H unit :=
  address ← address_string;
  message ← lift_result (format_percent format args);
  in_process (print (address ++ " - " ++ message)).

Definition greeting : bytes :=
  "Hello from secure CI/CD with SLSA + Cosign (Python Edition)!" ++ LF.

Definition do_GET : H unit :=
  _ ← send_response log_message 200 None;
  _ ← send_header "Content-Type" "text/plain";
  _ ← end_headers;
  wfile_write greeting.

(** [getattr(self, mname)] for the [do_] names: the class defines [do_GET],
    and none of its bases defines a [do_] method. *)
Definition SimpleHandler (mname : string) : option (H unit) :=
  if String.eqb mname "do_GET" then Some do_GET else None.

(** [PORT = int(os.environ.get('PORT', 8080))], the value. *)
Definition PORT_value : M State Z :=
  v ← os_environ_get "PORT" (VInt 8080);
  lift_result (int v).

(** [run_server], up to the call of [serve_forever], which never returns. *)
Definition run_server : M State HTTPServer :=
  port ← global_PORT;
  let address := ("", port) in
  httpd ← HTTPServer_init address;
  port ← global_PORT;
  _ ← print ("Starting Python web server on port " ++ str (VInt port) ++ "...");
  mret httpd.

(** The module body, run as [__main__]: the assignment to [PORT], the class
    and function definitions, and the call of [run_server]. *)
Definition app : M State HTTPServer :=
  n ← PORT_value;
  _ ← modify (set_PORT n);
  run_server.

(** ** The running process *)

(** The handler object for a connection, before [handle] runs. *)
Definition new_handler (r : Request) : Handler :=
  {| request := r; close_connection := true; headers_buffer := None; wfile := [] |}.

(** One accepted connection ([process_request]): a handler object is made
    and runs [handle].  An exception it raises is caught by the server,
    which reports it on stderr and closes the connection.  The result is
    what was written to the connection. *)
Definition process_request (r : Request) (st : State) : list chunk * State :=
  let '(_, hs) := handle log_message SimpleHandler {| self := new_handler r; process := st |} in
  (wfile (self hs), process hs).

(** [httpd.serve_forever()] over the connections that arrive, in order: what
    each was sent, and the process state after the last. *)
Fixpoint serve_forever (connections : list Request) (st : State)
  : list (list chunk) * State :=
  match connections with
  | [] => ([], st)
  | r :: rest =>
      let '(sent, st1) := process_request r st in
      let '(sents, st2) := serve_forever rest st1 in
      (sent :: sents, st2)
  end.

(** How the interpreter ends up: an exception nobody handles ends the
    process with exit status 1; otherwise the process sits in
    [serve_forever]. *)
Inductive outcome : Type :=
| Exited (status : Z) (e : exception) (st : State)
| Serving (httpd : HTTPServer) (st : State).

Definition python_app (st : State) : outcome :=
  match app st with
  | (inl e, st') => Exited 1 e st'
  | (inr httpd, st') => Serving httpd st'
  end.

(** ** Reading a response *)

Fixpoint head_lines (sent : list chunk) : list header_line :=
  match sent with
  | [] => []
  | Head lines :: rest => lines ++ head_lines rest
  | Body _ :: rest => head_lines rest
  end.

Fixpoint body_of (sent : list chunk) : bytes :=
  match sent with
  | [] => ""
  | Head _ :: rest => body_of rest
  | Body data :: rest => data ++ body_of rest
  end.

(** The status codes of the status lines sent (a response has one). *)
Fixpoint status_codes (lines : list header_line) : list Z :=
  match lines with
  | [] => []
  | StatusLine _ code _ :: rest => code :: status_codes rest
  | _ :: rest => status_codes rest
  end.

(** The values sent for a header, in order. *)
Fixpoint header_values (keyword : string) (lines : list header_line) : list string :=
  match lines with
  | [] => []
  | HeaderLine k v :: rest =>
      if String.eqb k keyword then v :: header_values keyword rest
      else header_values keyword rest
  | _ :: rest => header_values keyword rest
  end.

Record Response : Type := {
  status : list Z;
  content_type : list string;
  body : bytes
}.

Definition response_of (sent : list chunk) : Response :=
  {| status := status_codes (head_lines sent);
     content_type := header_values "Content-Type" (head_lines sent);
     body := body_of sent |}.

(** The answer to a request, in a given process state. *)
Definition respond (r : Request) (st : State) : Response :=
  response_of (fst (process_request r st)).

(** ** Sample surroundings, for running the model *)

Definition EADDRINUSE : Z := 98.

(** A kernel on which the ports in [taken] are in use, and port 0 asks for
    an ephemeral port. *)
Definition sample_kernel (taken : list Z) (port : Z) : Z + Z :=
  if existsb (Z.eqb port) taken then inl EADDRINUSE
  else if port =? 0 then inr 49152
  else inr port.

Definition sample_state (env : gmap string string) (taken : list Z) : State :=
  {| PORT := None; environ := env; kernel_listen := sample_kernel taken;
     clock := "Tue, 03 Nov 2026 12:00:00 GMT"; python_version := "3.11.2";
     stdout := ""; trace := [] |}.

Definition sample_request (method target : string) (hdrs : list (string * string)) : Request :=
  {| client_address := ("10.0.0.7", 51234);
     requestline := method ++ " " ++ target ++ " HTTP/1.1";
     command := method; path := target; request_version := "HTTP/1.1";
     headers := hdrs |}.

(** A request in the old form: a line of two words, as in [GET /]. *)
Definition sample_request_0_9 (target : string) (hdrs : list (string * string)) : Request :=
  {| client_address := ("10.0.0.7", 51234);
     requestline := "GET " ++ target;
     command := "GET"; path := target; request_version := "HTTP/0.9";
     headers := hdrs |}.

(** ** Vocabulary of the statements *)

(** The state a run of the script leaves behind. *)
Definition final_state (o : outcome) : State :=
  match o with
  | Exited _ _ st => st
  | Serving _ st => st
  end.

(** The value line 8 computes from the environment. *)
Definition resolved_port (st : State) : exception + Z :=
  match environ st !! "PORT" with
  | Some s => int_of_str s
  | None => inr 8080
  end.

Definition port_in_range (p : Z) : bool := (0 <=? p) && (p <=? 65535).

(** What asking for a listening socket at [p] comes to. *)
Definition bind_outcome (st : State) (p : Z) : exception + Z :=
  if port_in_range p then
    match kernel_listen st p with
    | inl errno => inl (OSError errno)
    | inr bound => inr bound
    end
  else inl OverflowError.

Definition startup_line (p : Z) : string :=
  "Starting Python web server on port " ++ str_of_int p ++ "...".

(** How often the environment was read. *)
Fixpoint environ_reads (t : list event) : nat :=
  match t with
  | [] => O
  | EnvironGet _ :: t' => S (environ_reads t')
  | SocketBind _ _ :: t' => environ_reads t'
  end.

(** The log entry for a request: the request line in quotes, the status
    code, and a dash for the size; in front of it the client's address. *)
Definition request_summary (r : Request) (code : string) : string :=
  QUOTE ++ requestline r ++ QUOTE ++ " " ++ code ++ " -".

Definition request_log_line (r : Request) (code : string) : string :=
  fst (client_address r) ++ " - " ++ request_summary r code.

(** The head of the answer to a GET. *)
Definition ok_head (st : State) : list header_line :=
  [StatusLine "HTTP/1.0" 200 "OK";
   HeaderLine "Server" ("BaseHTTP/0.6 Python/" ++ python_version st);
   HeaderLine "Date" (clock st);
   HeaderLine "Content-Type" "text/plain";
   BlankLine].

(** The answer to a command without a method. *)
Definition error_text (r : Request) : string :=
  "Unsupported method (" ++ repr_str (command r) ++ ")".

Definition error_body (r : Request) : bytes :=
  encode_utf8
    (error_message_format 501 (html_escape (error_text r))
       "Server does not support this operation").

Definition error_head (r : Request) (st : State) : list header_line :=
  [StatusLine "HTTP/1.0" 501 (error_text r);
   HeaderLine "Server" ("BaseHTTP/0.6 Python/" ++ python_version st);
   HeaderLine "Date" (clock st);
   HeaderLine "Connection" "close";
   HeaderLine "Content-Type" "text/html;charset=utf-8";
   HeaderLine "Content-Length" (str_of_int (len (error_body r)));
   BlankLine].

Definition error_log_line (r : Request) : string :=
  fst (client_address r) ++ " - " ++ "code 501, message " ++ error_text r.

Definition with_self (f : Handler -> Handler) (hs : HandlerState) : HandlerState :=
  {| self := f (self hs); process := process hs |}.

Definition with_process (f : State -> State) (hs : HandlerState) : HandlerState :=
  {| self := self hs; process := f (process hs) |}.

(** How many digits [digits_of] writes. *)
Fixpoint ndigits (fuel : nat) (n : Z) : N :=
  match fuel with
  | O => 1
  | S fuel' => if n <? 10 then 1 else (1 + ndigits fuel' (n / 10))%N
  end.

(** The characters an integer literal is made of. *)
Definition literal_char (c : ascii) : bool :=
  int_isspace c
  || match digit_value c with Some _ => true | None => false end
  || Ascii.eqb c "+" || Ascii.eqb c "-" || Ascii.eqb c "_".

Fixpoint all_chars (P : ascii -> bool) (s : string) : bool :=
  match s with
  | EmptyString => true
  | String c s' => P c && all_chars P s'
  end.

Definition newline : ascii := chr 10.

Fixpoint count_char (c : ascii) (s : string) : nat :=
  match s with
  | EmptyString => O
  | String c' s' => (if Ascii.eqb c c' then 1 else 0) + count_char c s'
  end.

Definition first_char (s : string) : option ascii :=
  match s with
  | EmptyString => None
  | String c _ => Some c
  end.

(** ** Vocabulary of the further properties *)

(** A text of blanks only, as [int] sees blanks. *)
Definition blank (s : string) : bool := all_chars int_isspace s.

(** What handling a request adds to standard output. *)
Definition log_text (r : Request) : string :=
  if String.eqb (command r) "GET"
  then request_log_line r "200" ++ LF
  else (error_log_line r ++ LF) ++ request_log_line r "501" ++ LF.

Fixpoint log_texts (connections : list Request) : string :=
  match connections with
  | [] => ""
  | r :: rest => log_text r ++ log_texts rest
  end.

(** The handler object and process a connection starts from. *)
Definition connection_start (r : Request) (st : State) : HandlerState :=
  {| self := new_handler r; process := st |}.

(** Unfolding the monad and the state updates. *)
Ltac run_M :=
  cbv [mbind M_bind mret M_ret modify gets raise lift_result in_process on_self];
  cbn [environ PORT kernel_listen clock python_version stdout trace
       record set_PORT write_stdout self process fst snd].

(** * Properties *)

(** ** Strings *)

Lemma append_nil_r (s : string) : s ++ "" = s.
Proof.
  induction s as [| c s IH]; [reflexivity |].
  change (String c (s ++ "") = String c s). now f_equal.
Qed.

Lemma contains_append c (a b : string) :
  contains c (a ++ b) = contains c a || contains c b.
Proof.
  induction a as [| x a IH]; [reflexivity |].
  change (Ascii.eqb c x || contains c (a ++ b)
          = Ascii.eqb c x || contains c a || contains c b).
  rewrite IH. apply orb_assoc.
Qed.

(** [repr] writes a line end as an escape, never as itself. *)
Lemma repr_body_no_newline q s :
  q <> newline -> contains newline (repr_body q s) = false.
Proof.
  intros Hq. induction s as [| c s IH]; [reflexivity |].
  cbn [repr_body]. rewrite contains_append, IH, orb_false_r.
  destruct (Ascii.eqb_spec c q) as [-> | Hcq].
  - cbn [orb]. cbn [contains]. change (Ascii.eqb newline "\") with false.
    destruct (Ascii.eqb_spec newline q); [congruence | reflexivity].
  - cbn [orb].
    destruct c as [[] [] [] [] [] [] [] []]; vm_compute; reflexivity.
Qed.

Lemma repr_str_no_newline s : contains newline (repr_str s) = false.
Proof.
  unfold repr_str.
  destruct (contains "'" s && negb (contains quotation_mark s));
    cbn [contains]; rewrite contains_append, repr_body_no_newline by discriminate;
    reflexivity.
Qed.

(** ** [int] and [str] *)

Section IntStr.

Lemma digit_value_digit_char d :
  0 <= d <= 9 -> digit_value (digit_char d) = Some d.
Proof.
  intros Hd.
  assert (Hc : d = 0 \/ d = 1 \/ d = 2 \/ d = 3 \/ d = 4 \/ d = 5 \/ d = 6
               \/ d = 7 \/ d = 8 \/ d = 9) by lia.
  repeat (destruct Hc as [-> | Hc]; [reflexivity |]). subst d. reflexivity.
Qed.

(** Scanning what [digits_of] wrote shifts the value read so far by the
    digits written and adds the number. *)
Lemma scan_digits_of fuel : forall n rest acc k,
  0 <= n <= Z.of_nat fuel ->
  scan_digits (digits_of fuel n rest) false acc k =
  scan_digits rest false (acc * 10 ^ Z.of_N (ndigits fuel n) + n) (k + ndigits fuel n).
Proof.
  induction fuel as [| fuel IH]; intros n rest acc k Hn.
  - assert (n = 0) by lia. subst n. cbn [digits_of ndigits scan_digits].
    change (0 mod 10) with 0.
    rewrite digit_value_digit_char by lia.
    f_equal; cbn; lia.
  - cbn [digits_of ndigits]. destruct (Z.ltb_spec n 10) as [Hlt | Hge].
    + cbn [scan_digits]. rewrite Z.mod_small by lia.
      rewrite digit_value_digit_char by lia. f_equal; cbn; lia.
    + rewrite IH by (split; [apply Z.div_pos; lia | apply Z.div_le_upper_bound; lia]).
      cbn [scan_digits].
      pose proof (Z.mod_pos_bound n 10 ltac:(lia)) as Hm.
      rewrite digit_value_digit_char by lia.
      f_equal; [| lia].
      rewrite N2Z.inj_add, Z.pow_add_r by lia.
      change (10 ^ Z.of_N 1) with 10.
      pose proof (Z.div_mod n 10 ltac:(lia)). lia.
Qed.

Lemma ndigits_bound (k : nat) : forall fuel n,
  0 <= n < 10 ^ Z.of_nat (S k) -> (ndigits fuel n <= N.of_nat (S k))%N.
Proof.
  induction k as [| k IH]; intros fuel n Hn.
  - destruct fuel as [| fuel]; cbn [ndigits]; [lia |].
    change (10 ^ Z.of_nat 1) with 10 in Hn.
    destruct (Z.ltb_spec n 10); lia.
  - destruct fuel as [| fuel]; cbn [ndigits]; [lia |].
    destruct (Z.ltb_spec n 10) as [Hlt | Hge]; [lia |].
    assert (Hq : 0 <= n / 10 < 10 ^ Z.of_nat (S k)).
    { split; [apply Z.div_pos; lia |].
      apply Z.div_lt_upper_bound; [lia |].
      replace (Z.of_nat (S (S k))) with (1 + Z.of_nat (S k)) in Hn by lia.
      rewrite Z.pow_add_r in Hn by lia. change (10 ^ 1) with 10 in Hn. lia. }
    specialize (IH fuel (n / 10) Hq). lia.
Qed.

Lemma ndigits_pos fuel n : (1 <= ndigits fuel n)%N.
Proof. destruct fuel; cbn [ndigits]; [lia |]. destruct (n <? 10); lia. Qed.

Lemma digits_of_head fuel : forall n rest,
  0 <= n -> exists d t, 0 <= d <= 9 /\ digits_of fuel n rest = String (digit_char d) t.
Proof.
  induction fuel as [| fuel IH]; intros n rest Hn; cbn [digits_of].
  - exists (n mod 10), rest. split; [| reflexivity].
    pose proof (Z.mod_pos_bound n 10 ltac:(lia)). lia.
  - destruct (n <? 10).
    + exists (n mod 10), rest. split; [| reflexivity].
      pose proof (Z.mod_pos_bound n 10 ltac:(lia)). lia.
    + apply IH. apply Z.div_pos; lia.
Qed.

(** A literal that starts with a digit and scans to its end is read as the
    value scanned, and with a minus sign in front as its opposite. *)
Lemma int_of_str_scanned d t acc digits :
  0 <= d <= 9 ->
  scan_digits (String (digit_char d) t) false 0 0 = Some (acc, digits, "") ->
  (digits <> 0)%N -> (digits <= max_str_digits)%N ->
  int_of_str (String (digit_char d) t) = inr acc /\
  int_of_str (String "-" (String (digit_char d) t)) = inr (- acc).
Proof.
  intros Hd Hscan Hnz Hmax.
  assert (Hz : (digits =? 0)%N = false) by (apply N.eqb_neq; exact Hnz).
  assert (Hm : (max_str_digits <? digits)%N = false) by (apply N.ltb_ge; exact Hmax).
  assert (Hc : d = 0 \/ d = 1 \/ d = 2 \/ d = 3 \/ d = 4 \/ d = 5 \/ d = 6
               \/ d = 7 \/ d = 8 \/ d = 9) by lia.
  repeat (destruct Hc as [-> | Hc];
          [ cbv -[scan_digits N.eqb N.ltb Z.opp max_str_digits] in *;
            rewrite Hscan, Hz, Hm; split; reflexivity |]).
  subst d. cbv -[scan_digits N.eqb N.ltb Z.opp max_str_digits] in *.
  rewrite Hscan, Hz, Hm. split; reflexivity.
Qed.

(** [int(str(n)) == n], as long as [n] has no more digits than [int]
    accepts. *)
Lemma int_of_str_str_of_int (k : nat) (n : Z) :
  (k < 4300)%nat -> - 10 ^ Z.of_nat (S k) < n < 10 ^ Z.of_nat (S k) ->
  int_of_str (str_of_int n) = inr n.
Proof.
  intros Hk Hn. unfold str_of_int.
  set (m := if n <? 0 then - n else n).
  assert (Hm : 0 <= m < 10 ^ Z.of_nat (S k)) by (subst m; destruct (Z.ltb_spec n 0); lia).
  assert (Hgoal : int_of_str (digits_of (Z.to_nat m) m "") = inr m /\
                  int_of_str (String "-" (digits_of (Z.to_nat m) m "")) = inr (- m)).
  { destruct (digits_of_head (Z.to_nat m) m "" ltac:(lia)) as (d & t & Hd & Heq).
    pose proof (scan_digits_of (Z.to_nat m) m "" 0 0 ltac:(lia)) as Hscan.
    rewrite Heq in *.
    change (scan_digits "" false ?a ?b) with (Some (a, b, "")) in Hscan.
    pose proof (ndigits_bound k (Z.to_nat m) m Hm).
    pose proof (ndigits_pos (Z.to_nat m) m).
    replace (0 * 10 ^ Z.of_N (ndigits (Z.to_nat m) m) + m) with m in Hscan by lia.
    eapply int_of_str_scanned in Hscan; [exact Hscan | lia | lia |].
    unfold max_str_digits. lia. }
  subst m. destruct (Z.ltb_spec n 0).
  - destruct Hgoal as [_ ->]. f_equal. lia.
  - destruct Hgoal as [-> _]. reflexivity.
Qed.

Lemma int_of_str_port (n : Z) :
  0 <= n <= 65535 -> int_of_str (str_of_int n) = inr n.
Proof.
  intros Hn. apply (int_of_str_str_of_int 4); [lia |].
  change (10 ^ Z.of_nat 5) with 100000. lia.
Qed.

(** Whatever [int] raises on a string is a [ValueError]. *)
Lemma int_of_str_raises s e : int_of_str s = inl e -> e = ValueError.
Proof.
  unfold int_of_str.
  destruct (match skip_spaces s with
            | String "+" r => (false, r)
            | String "-" r => (true, r)
            | _ => (false, skip_spaces s)
            end) as [negative s2].
  intros Hr.
  repeat match type of Hr with
         | inl _ = inl _ => injection Hr as <-; reflexivity
         | inr _ = inl _ => discriminate Hr
         | context [match ?x with _ => _ end] => destruct x
         end.
Qed.

Lemma skip_spaces_literal s :
  all_chars literal_char (skip_spaces s) = true -> all_chars literal_char s = true.
Proof.
  induction s as [| c s IH]; cbn [skip_spaces all_chars]; [trivial |].
  destruct (int_isspace c) eqn:Hc; [| trivial].
  intros Hs. rewrite (IH Hs), andb_true_r. unfold literal_char. now rewrite Hc.
Qed.

Lemma scan_digits_literal s : forall prev acc k acc' k' rest,
  scan_digits s prev acc k = Some (acc', k', rest) ->
  all_chars literal_char rest = true -> all_chars literal_char s = true.
Proof.
  induction s as [| c s IH]; intros prev acc k acc' k' rest Hs Hr;
    cbn [scan_digits] in Hs.
  - destruct prev; [discriminate |]. injection Hs as <- <- <-. exact Hr.
  - cbn [all_chars]. apply andb_true_intro.
    destruct (digit_value c) as [d |] eqn:Hd.
    + split; [| exact (IH _ _ _ _ _ _ Hs Hr)].
      unfold literal_char. rewrite Hd. destruct (int_isspace c); reflexivity.
    + destruct (Ascii.eqb c "_") eqn:Hu.
      * destruct prev; [discriminate |].
        split; [| exact (IH _ _ _ _ _ _ Hs Hr)].
        unfold literal_char. rewrite Hu. now rewrite !orb_true_r.
      * destruct prev; [discriminate |]. injection Hs as <- <- <-.
        cbn [all_chars] in Hr. apply andb_prop in Hr. exact Hr.
Qed.

(** A string that [int] accepts consists of blanks, signs, digits and
    underscores only. *)
Lemma int_of_str_literal s n :
  int_of_str s = inr n -> all_chars literal_char s = true.
Proof.
  unfold int_of_str. intros Hr. apply skip_spaces_literal.
  assert (Hbody : forall negative s2,
    match s2 with
    | String "_" _ => inl ValueError
    | _ =>
        match scan_digits s2 false 0 0 with
        | None => inl ValueError
        | Some (acc, digits, rest) =>
            if (digits =? 0)%N then inl ValueError
            else if (max_str_digits <? digits)%N then inl ValueError
            else
              match skip_spaces rest with
              | EmptyString => inr (if negative : bool then - acc else acc)
              | String _ _ => inl ValueError
              end
        end
    end = inr n -> all_chars literal_char s2 = true).
  { intros negative s2 H2.
    assert (Hscan : exists acc digits rest,
               scan_digits s2 false 0 0 = Some (acc, digits, rest)
               /\ skip_spaces rest = "").
    { destruct (scan_digits s2 false 0 0) as [[[acc digits] rest] |] eqn:Hs.
      - exists acc, digits, rest. split; [reflexivity |].
        destruct s2 as [| c s2']; [| destruct c as [[] [] [] [] [] [] [] []]];
          try discriminate H2;
          destruct (digits =? 0)%N; try discriminate H2;
          destruct (max_str_digits <? digits)%N; try discriminate H2;
          destruct (skip_spaces rest); try discriminate H2; reflexivity.
      - destruct s2 as [| c s2']; [| destruct c as [[] [] [] [] [] [] [] []]];
          discriminate H2. }
    destruct Hscan as (acc & digits & rest & Hs & Hrest).
    eapply scan_digits_literal; [exact Hs |].
    apply skip_spaces_literal. now rewrite Hrest. }
  destruct (skip_spaces s) as [| c s1] eqn:Hs1.
  - apply (Hbody false "" Hr).
  - destruct c as [[] [] [] [] [] [] [] []];
      first
        [ match goal with
          | |- all_chars _ ?x = true => exact (Hbody false x Hr)
          end
        | change (all_chars literal_char s1 = true);
          first [exact (Hbody false s1 Hr) | exact (Hbody true s1 Hr)] ].
Qed.

(** So a string with any other character in it is refused. *)
Lemma int_of_str_non_numeric s :
  all_chars literal_char s = false -> int_of_str s = inl ValueError.
Proof.
  intros Hs. destruct (int_of_str s) as [e | n] eqn:Hr.
  - now rewrite (int_of_str_raises s e Hr).
  - apply int_of_str_literal in Hr. congruence.
Qed.

End IntStr.

(** ** Startup *)

Section Startup.

Variable st : State.

Lemma PORT_value_eq :
  PORT_value st = (resolved_port st, record (EnvironGet "PORT") st).
Proof.
  unfold PORT_value, os_environ_get, resolved_port. run_M.
  destruct (environ st !! "PORT"); reflexivity.
Qed.

Lemma socket_bind_listen_eq host p :
  socket_bind_listen (host, p) st =
  (bind_outcome st p,
   if port_in_range p then record (SocketBind host p) st else st).
Proof.
  unfold socket_bind_listen, bind_outcome, port_in_range.
  destruct ((0 <=? p) && (p <=? 65535)); run_M.
  - destruct (kernel_listen st p); reflexivity.
  - reflexivity.
Qed.

Lemma HTTPServer_init_eq host p :
  HTTPServer_init (host, p) st =
  (match bind_outcome st p with
   | inl e => inl e
   | inr bound => inr {| server_port := bound |}
   end,
   if port_in_range p then record (SocketBind host p) st else st).
Proof.
  unfold HTTPServer_init. cbv [mbind M_bind]. rewrite socket_bind_listen_eq.
  destruct (bind_outcome st p); reflexivity.
Qed.

Lemma run_server_eq p :
  PORT st = Some p ->
  run_server st =
  match bind_outcome st p with
  | inl e => (inl e, if port_in_range p then record (SocketBind "" p) st else st)
  | inr bound =>
      (inr {| server_port := bound |},
       write_stdout (startup_line p ++ LF) (record (SocketBind "" p) st))
  end.
Proof.
  intros HP. unfold run_server, global_PORT. run_M. rewrite HP.
  run_M. rewrite HTTPServer_init_eq. unfold bind_outcome.
  destruct (port_in_range p); [| reflexivity].
  destruct (kernel_listen st p); [reflexivity |].
  run_M. rewrite HP. reflexivity.
Qed.

End Startup.

(** The whole of startup, by cases on the port resolved and on the answer
    to the bind. *)
Lemma python_app_eq (st : State) :
  python_app st =
  match resolved_port st with
  | inl e => Exited 1 e (record (EnvironGet "PORT") st)
  | inr p =>
      let st1 := set_PORT p (record (EnvironGet "PORT") st) in
      match bind_outcome st p with
      | inl e => Exited 1 e (if port_in_range p then record (SocketBind "" p) st1 else st1)
      | inr bound =>
          Serving {| server_port := bound |}
            (write_stdout (startup_line p ++ LF) (record (SocketBind "" p) st1))
      end
  end.
Proof.
  unfold python_app, app. cbv [mbind M_bind]. rewrite PORT_value_eq.
  destruct (resolved_port st) as [e | p]; [reflexivity |].
  cbv [modify]. rewrite (run_server_eq _ p) by reflexivity.
  change (bind_outcome (set_PORT p (record (EnvironGet "PORT") st)) p)
    with (bind_outcome st p).
  cbv zeta. destruct (bind_outcome st p); reflexivity.
Qed.

Lemma environ_reads_app (t u : list event) :
  environ_reads (t ++ u) = (environ_reads t + environ_reads u)%nat.
Proof.
  induction t as [| [key | host port] t IH]; simpl; lia.
Qed.

(** ** One request *)

Section OneRequest.

Lemma log_message_eq format args hs :
  log_message format args hs =
  match format_percent format args with
  | inr message =>
      (inr tt,
       with_process
         (write_stdout
            ((fst (client_address (request (self hs))) ++ " - " ++ message) ++ LF)) hs)
  | inl e => (inl e, hs)
  end.
Proof.
  unfold log_message, address_string. run_M.
  destruct (format_percent format args); [destruct hs |]; reflexivity.
Qed.

Lemma log_request_eq code hs :
  log_request log_message code hs =
  (inr tt,
   with_process
     (write_stdout (request_log_line (request (self hs)) (str_of_int code) ++ LF)) hs).
Proof.
  unfold log_request. run_M. rewrite log_message_eq. reflexivity.
Qed.

(** The form of the request, looked up through the updates of a state. *)
Ltac form_of_request :=
  cbn [self process request with_self with_process buffer_append
       set_headers_buffer set_close_connection wfile_append
       connection_start new_handler];
  assumption.

(** *** A request that names a protocol version *)

Lemma send_response_only_eq code message hs :
  HTTP_0_9 (request (self hs)) = false ->
  send_response_only code message hs =
  (inr tt,
   with_self
     (buffer_append
        (StatusLine protocol_version code
           match message with
           | Some m => m
           | None => match responses code with Some (short, _) => short | None => "" end
           end)) hs).
Proof.
  intros Hform. unfold send_response_only. run_M. rewrite Hform. reflexivity.
Qed.

Lemma send_header_eq keyword value hs :
  HTTP_0_9 (request (self hs)) = false ->
  String.eqb (lower keyword) "connection" = false ->
  send_header keyword value hs =
  (inr tt, with_self (buffer_append (HeaderLine keyword value)) hs).
Proof.
  intros Hform Hk. unfold send_header. run_M. rewrite Hform. cbn [negb]. run_M.
  rewrite Hk. reflexivity.
Qed.

Lemma send_header_close hs :
  HTTP_0_9 (request (self hs)) = false ->
  send_header "Connection" "close" hs =
  (inr tt,
   with_self (fun h => set_close_connection true
                         (buffer_append (HeaderLine "Connection" "close") h)) hs).
Proof.
  intros Hform. unfold send_header. run_M. rewrite Hform. reflexivity.
Qed.

Lemma send_response_eq code message hs :
  HTTP_0_9 (request (self hs)) = false ->
  send_response log_message code message hs =
  (inr tt,
   with_self
     (fun h =>
        buffer_append (HeaderLine "Date" (clock (process hs)))
          (buffer_append
             (HeaderLine "Server" ("BaseHTTP/0.6 Python/" ++ python_version (process hs)))
             (buffer_append
                (StatusLine protocol_version code
                   match message with
                   | Some m => m
                   | None =>
                       match responses code with Some (short, _) => short | None => "" end
                   end) h)))
     (with_process
        (write_stdout (request_log_line (request (self hs)) (str_of_int code) ++ LF)) hs)).
Proof.
  intros Hform. unfold send_response, version_string, date_time_string.
  cbv [mbind M_bind]. rewrite log_request_eq.
  rewrite send_response_only_eq by form_of_request.
  cbv [gets].
  rewrite send_header_eq by (form_of_request || reflexivity).
  rewrite send_header_eq by (form_of_request || reflexivity).
  reflexivity.
Qed.

Lemma end_headers_eq hs lines :
  HTTP_0_9 (request (self hs)) = false ->
  headers_buffer (self hs) = Some lines ->
  end_headers hs =
  (inr tt,
   with_self (fun h => set_headers_buffer (Some [])
                         (wfile_append (Head (lines ++ [BlankLine])) h)) hs).
Proof.
  intros Hform Hb. unfold end_headers, flush_headers. run_M. rewrite Hform.
  cbn [negb]. run_M. rewrite Hb. run_M.
  unfold buffer_append at 1. cbn [headers_buffer set_headers_buffer].
  rewrite Hb. reflexivity.
Qed.

(** *** A request in the HTTP/0.9 form: no head line is buffered *)

Lemma send_header_old keyword value hs :
  HTTP_0_9 (request (self hs)) = true ->
  String.eqb (lower keyword) "connection" = false ->
  send_header keyword value hs = (inr tt, hs).
Proof.
  intros Hform Hk. unfold send_header. run_M. rewrite Hform. cbn [negb]. run_M.
  rewrite Hk. reflexivity.
Qed.

Lemma send_header_close_old hs :
  HTTP_0_9 (request (self hs)) = true ->
  send_header "Connection" "close" hs
  = (inr tt, with_self (set_close_connection true) hs).
Proof.
  intros Hform. unfold send_header. run_M. rewrite Hform. reflexivity.
Qed.

Lemma send_response_old code message hs :
  HTTP_0_9 (request (self hs)) = true ->
  send_response log_message code message hs =
  (inr tt,
   with_process
     (write_stdout (request_log_line (request (self hs)) (str_of_int code) ++ LF)) hs).
Proof.
  intros Hform. unfold send_response, version_string, date_time_string.
  cbv [mbind M_bind]. rewrite log_request_eq.
  unfold send_response_only. run_M. cbn [with_process self]. rewrite Hform.
  cbn [negb]. run_M.
  rewrite send_header_old by (form_of_request || reflexivity).
  rewrite send_header_old by (form_of_request || reflexivity).
  reflexivity.
Qed.

Lemma end_headers_old hs :
  HTTP_0_9 (request (self hs)) = true -> end_headers hs = (inr tt, hs).
Proof.
  intros Hform. unfold end_headers. run_M. rewrite Hform. reflexivity.
Qed.

Lemma SimpleHandler_dispatch cmd :
  SimpleHandler ("do_" ++ cmd) = if String.eqb cmd "GET" then Some do_GET else None.
Proof. reflexivity. Qed.

(** *** [handle], by the command and the form of the request *)

Lemma handle_GET r st :
  command r = "GET" -> HTTP_0_9 r = false ->
  handle log_message SimpleHandler (connection_start r st) =
  (inr tt,
   {| self := {| request := r; close_connection := true;
                 headers_buffer := Some [];
                 wfile := [Head (ok_head st); Body greeting] |};
      process := write_stdout (request_log_line r "200" ++ LF) st |}).
Proof.
  intros Hcmd Hform.
  unfold connection_start, handle, handle_one_request. run_M.
  cbn [new_handler request set_close_connection]. rewrite Hcmd.
  change (SimpleHandler ("do_" ++ "GET")) with (Some do_GET).
  cbv iota beta.
  unfold do_GET. cbv [mbind M_bind].
  rewrite send_response_eq by form_of_request.
  rewrite send_header_eq by (form_of_request || reflexivity).
  erewrite end_headers_eq by (form_of_request || reflexivity).
  reflexivity.
Qed.

Lemma handle_GET_old r st :
  command r = "GET" -> HTTP_0_9 r = true ->
  handle log_message SimpleHandler (connection_start r st) =
  (inr tt,
   {| self := {| request := r; close_connection := true;
                 headers_buffer := None;
                 wfile := [Body greeting] |};
      process := write_stdout (request_log_line r "200" ++ LF) st |}).
Proof.
  intros Hcmd Hform.
  unfold connection_start, handle, handle_one_request. run_M.
  cbn [new_handler request set_close_connection]. rewrite Hcmd.
  change (SimpleHandler ("do_" ++ "GET")) with (Some do_GET).
  cbv iota beta.
  unfold do_GET. cbv [mbind M_bind].
  rewrite send_response_old by form_of_request.
  rewrite send_header_old by (form_of_request || reflexivity).
  rewrite end_headers_old by form_of_request.
  reflexivity.
Qed.

Lemma format_code_message text :
  format_percent "code %d, message %s" [VInt 501; VStr text]
  = inr ("code 501, message " ++ text).
Proof.
  cbn -[str_of_int]. rewrite append_nil_r. reflexivity.
Qed.

Lemma send_error_501_eq text hs :
  HTTP_0_9 (request (self hs)) = false ->
  headers_buffer (self hs) = None ->
  send_error log_message 501 (Some text) None hs =
  (let body :=
     encode_utf8 (error_message_format 501 (html_escape text)
                    "Server does not support this operation") in
   (inr tt,
    {| self :=
         {| request := request (self hs);
            close_connection := true;
            headers_buffer := Some [];
            wfile :=
              wfile (self hs) ++
              Head [StatusLine "HTTP/1.0" 501 text;
                    HeaderLine "Server"
                      ("BaseHTTP/0.6 Python/" ++ python_version (process hs));
                    HeaderLine "Date" (clock (process hs));
                    HeaderLine "Connection" "close";
                    HeaderLine "Content-Type" "text/html;charset=utf-8";
                    HeaderLine "Content-Length" (str_of_int (len body));
                    BlankLine]
              :: (if String.eqb (command (request (self hs))) "HEAD" then []
                  else [Body body]) |};
       process :=
         write_stdout (request_log_line (request (self hs)) "501" ++ LF)
           (write_stdout
              ((fst (client_address (request (self hs))) ++ " - "
                ++ "code 501, message " ++ text) ++ LF)
              (process hs)) |})).
Proof.
  intros Hform Hbuf. unfold send_error, log_error.
  change (responses 501)
    with (Some ("Not Implemented", "Server does not support this operation")).
  cbv [default from_option id]. cbv [mbind M_bind].
  rewrite log_message_eq, format_code_message.
  rewrite send_response_eq by form_of_request.
  rewrite send_header_close by form_of_request.
  change ((200 <=? 501) && negb ((501 =? 204) || (501 =? 205) || (501 =? 304)))
    with true.
  cbv iota beta.
  rewrite send_header_eq by (form_of_request || reflexivity).
  rewrite send_header_eq by (form_of_request || reflexivity).
  erewrite end_headers_eq
    by (first [ form_of_request
              | cbn [self with_self with_process set_close_connection buffer_append
                     set_headers_buffer headers_buffer]; rewrite Hbuf; reflexivity ]).
  cbv [gets]. cbn [self with_self with_process request set_headers_buffer wfile_append
                   set_close_connection buffer_append process].
  set (body := encode_utf8 _).
  change (String.eqb body "") with false. rewrite andb_true_r.
  destruct (String.eqb (command (request (self hs))) "HEAD"); cbn [negb].
  - unfold mret, M_ret. cbn. reflexivity.
  - unfold wfile_write, on_self, modify.
    destruct hs as [[rq cc hb wf] pst].
    cbv [wfile_append set_headers_buffer buffer_append set_close_connection
         with_self with_process
         request close_connection headers_buffer wfile self process].
    rewrite <- app_assoc. reflexivity.
Qed.

Lemma send_error_501_old text hs :
  HTTP_0_9 (request (self hs)) = true ->
  send_error log_message 501 (Some text) None hs =
  (let body :=
     encode_utf8 (error_message_format 501 (html_escape text)
                    "Server does not support this operation") in
   (inr tt,
    {| self :=
         {| request := request (self hs);
            close_connection := true;
            headers_buffer := headers_buffer (self hs);
            wfile :=
              wfile (self hs) ++
              (if String.eqb (command (request (self hs))) "HEAD" then []
               else [Body body]) |};
       process :=
         write_stdout (request_log_line (request (self hs)) "501" ++ LF)
           (write_stdout
              ((fst (client_address (request (self hs))) ++ " - "
                ++ "code 501, message " ++ text) ++ LF)
              (process hs)) |})).
Proof.
  intros Hform. unfold send_error, log_error.
  change (responses 501)
    with (Some ("Not Implemented", "Server does not support this operation")).
  cbv [default from_option id]. cbv [mbind M_bind].
  rewrite log_message_eq, format_code_message.
  rewrite send_response_old by form_of_request.
  rewrite send_header_close_old by form_of_request.
  change ((200 <=? 501) && negb ((501 =? 204) || (501 =? 205) || (501 =? 304)))
    with true.
  cbv iota beta.
  rewrite send_header_old by (form_of_request || reflexivity).
  rewrite send_header_old by (form_of_request || reflexivity).
  rewrite end_headers_old by form_of_request.
  cbv [gets]. cbn [self with_self with_process request set_close_connection process].
  set (body := encode_utf8 _).
  change (String.eqb body "") with false. rewrite andb_true_r.
  destruct hs as [[rq cc hb wf] pst].
  cbn [self process request command close_connection headers_buffer wfile].
  destruct (String.eqb (command rq) "HEAD"); cbn [negb].
  - unfold mret, M_ret. cbv [with_self with_process set_close_connection
                              request close_connection headers_buffer wfile self process].
    rewrite app_nil_r. reflexivity.
  - unfold wfile_write, on_self, modify.
    cbv [wfile_append with_self with_process set_close_connection
         request close_connection headers_buffer wfile self process].
    reflexivity.
Qed.

Lemma handle_other r st :
  command r <> "GET" -> HTTP_0_9 r = false ->
  handle log_message SimpleHandler (connection_start r st) =
  (inr tt,
   {| self := {| request := r; close_connection := true;
                 headers_buffer := Some [];
                 wfile := Head (error_head r st)
                          :: (if String.eqb (command r) "HEAD" then []
                              else [Body (error_body r)]) |};
      process := write_stdout (request_log_line r "501" ++ LF)
                   (write_stdout (error_log_line r ++ LF) st) |}).
Proof.
  intros Hcmd Hform.
  unfold connection_start, handle, handle_one_request. run_M.
  cbn [new_handler request set_close_connection].
  rewrite SimpleHandler_dispatch.
  destruct (String.eqb_spec (command r) "GET") as [| _]; [contradiction |].
  change (format_percent "Unsupported method (%r)" [VStr (command r)])
    with (@inr exception _ (error_text r)).
  cbv iota beta.
  rewrite send_error_501_eq by (form_of_request || reflexivity).
  reflexivity.
Qed.

Lemma handle_other_old r st :
  command r <> "GET" -> HTTP_0_9 r = true ->
  handle log_message SimpleHandler (connection_start r st) =
  (inr tt,
   {| self := {| request := r; close_connection := true;
                 headers_buffer := None;
                 wfile := if String.eqb (command r) "HEAD" then []
                          else [Body (error_body r)] |};
      process := write_stdout (request_log_line r "501" ++ LF)
                   (write_stdout (error_log_line r ++ LF) st) |}).
Proof.
  intros Hcmd Hform.
  unfold connection_start, handle, handle_one_request. run_M.
  cbn [new_handler request set_close_connection].
  rewrite SimpleHandler_dispatch.
  destruct (String.eqb_spec (command r) "GET") as [| _]; [contradiction |].
  change (format_percent "Unsupported method (%r)" [VStr (command r)])
    with (@inr exception _ (error_text r)).
  cbv iota beta.
  rewrite send_error_501_old by form_of_request.
  reflexivity.
Qed.

Lemma process_request_handle r st :
  process_request r st =
  (wfile (self (snd (handle log_message SimpleHandler (connection_start r st)))),
   process (snd (handle log_message SimpleHandler (connection_start r st)))).
Proof.
  unfold process_request, connection_start.
  destruct (handle log_message SimpleHandler _) as [res hs]. reflexivity.
Qed.

(** A GET: the head with status 200 unless the request is in the HTTP/0.9
    form, the greeting, one log entry. *)
Lemma process_request_GET r st :
  command r = "GET" ->
  process_request r st =
  (((if HTTP_0_9 r then [] else [Head (ok_head st)]) ++ [Body greeting])%list,
   write_stdout (request_log_line r "200" ++ LF) st).
Proof.
  intros Hcmd. rewrite process_request_handle.
  destruct (HTTP_0_9 r) eqn:Hform.
  - rewrite (handle_GET_old r st Hcmd Hform). reflexivity.
  - rewrite (handle_GET r st Hcmd Hform). reflexivity.
Qed.

(** Any other command: the base class's 501, with its head unless the
    request is in the HTTP/0.9 form, and two log entries. *)
Lemma process_request_other r st :
  command r <> "GET" ->
  process_request r st =
  (((if HTTP_0_9 r then [] else [Head (error_head r st)])
      ++ (if String.eqb (command r) "HEAD" then [] else [Body (error_body r)]))%list,
   write_stdout (request_log_line r "501" ++ LF)
     (write_stdout (error_log_line r ++ LF) st)).
Proof.
  intros Hcmd. rewrite process_request_handle.
  destruct (HTTP_0_9 r) eqn:Hform.
  - rewrite (handle_other_old r st Hcmd Hform). reflexivity.
  - rewrite (handle_other r st Hcmd Hform). reflexivity.
Qed.

Lemma respond_GET r st :
  command r = "GET" ->
  respond r st =
  if HTTP_0_9 r
  then {| status := []; content_type := []; body := greeting |}
  else {| status := [200]; content_type := ["text/plain"]; body := greeting |}.
Proof.
  intros Hcmd. unfold respond. rewrite process_request_GET by exact Hcmd.
  destruct (HTTP_0_9 r); vm_compute; reflexivity.
Qed.

Lemma error_body_first r : first_char (error_body r) = Some "<"%char.
Proof. lazy. reflexivity. Qed.

Lemma respond_other r st :
  command r <> "GET" ->
  status (respond r st) = (if HTTP_0_9 r then [] else [501])
  /\ body (respond r st) <> greeting.
Proof.
  intros Hcmd. unfold respond. rewrite process_request_other by exact Hcmd.
  destruct (HTTP_0_9 r), (String.eqb (command r) "HEAD");
    (split; [reflexivity |]); try discriminate;
    cbn [fst response_of body body_of app]; rewrite append_nil_r;
    intros Heq; pose proof (error_body_first r) as Hfirst;
    rewrite Heq in Hfirst; discriminate Hfirst.
Qed.

(** Handling a request touches nothing of the process but its output. *)
Lemma process_request_frame r st :
  PORT (snd (process_request r st)) = PORT st /\
  trace (snd (process_request r st)) = trace st /\
  environ (snd (process_request r st)) = environ st.
Proof.
  destruct (String.eqb_spec (command r) "GET") as [Hcmd | Hcmd].
  - rewrite process_request_GET by exact Hcmd. repeat split.
  - rewrite process_request_other by exact Hcmd. repeat split.
Qed.

End OneRequest.

Lemma serve_forever_cons r rest st :
  snd (serve_forever (r :: rest) st) = snd (serve_forever rest (snd (process_request r st))).
Proof.
  cbn [serve_forever]. destruct (process_request r st) as [sent st1].
  cbn [snd]. destruct (serve_forever rest st1); reflexivity.
Qed.

Lemma serve_forever_frame connections : forall st,
  PORT (snd (serve_forever connections st)) = PORT st /\
  trace (snd (serve_forever connections st)) = trace st.
Proof.
  induction connections as [| r rest IH]; intros st; [split; reflexivity |].
  rewrite serve_forever_cons.
  destruct (IH (snd (process_request r st))) as [-> ->].
  destruct (process_request_frame r st) as (HP & Ht & _). now rewrite HP, Ht.
Qed.

(** * The claims *)

(** C1, on the request line [GET /]: the request is a GET, [do_GET] runs,
    and what goes out is the greeting alone, with no status and no
    Content-Type. *)
Lemma GET_status_200_counterexample :
  command (sample_request_0_9 "/" []) = "GET"
  /\ respond (sample_request_0_9 "/" []) (sample_state ∅ [])
     = {| status := []; content_type := []; body := greeting |}.
Proof.
  split; [reflexivity |]. apply respond_GET. reflexivity.
Qed.

(** C1, as the code has it.  A GET request that names a protocol version,
    whatever its path and headers (and whatever else it carries), is
    answered with status 200, the header Content-Type: text/plain, and the
    greeting as the body, byte for byte.  A GET in the HTTP/0.9 form is
    answered with the greeting alone: the library sends it no status line
    and no header. *)
Theorem GET_response_by_version (r : Request) (st : State) :
  command r = "GET" ->
  respond r st
  = (if HTTP_0_9 r
     then {| status := []; content_type := []; body := greeting |}
     else {| status := [200]; content_type := ["text/plain"]; body := greeting |})
  /\ greeting = "Hello from secure CI/CD with SLSA + Cosign (Python Edition)!" ++ LF.
Proof.
  intros Hcmd. split; [exact (respond_GET r st Hcmd) | reflexivity].
Qed.

Lemma GET_response_by_version_witness :
  respond (sample_request "GET" "/any/path?x=1" [("Accept", "application/json")])
          (sample_state ∅ [])
  = {| status := [200]; content_type := ["text/plain"]; body := greeting |}.
Proof.
  apply (GET_response_by_version
           (sample_request "GET" "/any/path?x=1" [("Accept", "application/json")])
           (sample_state ∅ [])).
  reflexivity.
Defined.

(** C2, on a POST: the answer is the base class's 501, not the greeting. *)
Lemma every_method_200_counterexample :
  status (respond (sample_request "POST" "/" []) (sample_state ∅ [])) = [501]
  /\ body (respond (sample_request "POST" "/" []) (sample_state ∅ [])) <> greeting.
Proof.
  apply (respond_other (sample_request "POST" "/" []) (sample_state ∅ [])). discriminate.
Qed.

(** C2, as the code has it.  The path never matters; the method and the
    form of the request do.  A GET is answered with the greeting, under
    status 200 when the request names a protocol version and with no status
    line when it is in the HTTP/0.9 form.  For any other command the class
    has no method: the base class answers with a body that is not the
    greeting, under status 501 when the request names a protocol version
    and with no status line otherwise. *)
Theorem response_by_method (r : Request) (st : State) :
  (if String.eqb (command r) "GET"
   then body (respond r st) = greeting
   else body (respond r st) <> greeting)
  /\ status (respond r st)
     = (if HTTP_0_9 r then []
        else if String.eqb (command r) "GET" then [200] else [501]).
Proof.
  destruct (String.eqb_spec (command r) "GET") as [Hcmd | Hcmd].
  - rewrite (respond_GET r st Hcmd). destruct (HTTP_0_9 r); split; reflexivity.
  - destruct (respond_other r st Hcmd) as [Hstatus Hbody]. split; assumption.
Qed.

(** C3, on two requests [GET /] that differ in their Accept header: both are
    sent the same, but no Content-Type header at all. *)
Lemma GET_content_type_counterexample :
  content_type (respond (sample_request_0_9 "/" [("Accept", "text/html")])
                  (sample_state ∅ [])) = []
  /\ content_type (respond (sample_request_0_9 "/" [("Accept", "application/json")])
                     (sample_state ∅ [])) = [].
Proof.
  split;
    match goal with
    | |- content_type (respond ?r ?st) = _ =>
        rewrite (respond_GET r st eq_refl); reflexivity
    end.
Qed.

(** C3, as the code has it.  Two GET requests of the same form get the same
    response, whatever else differs between them (path, headers, ...): in
    two runs from any two process states the status, the Content-Type and
    the body agree, and in two runs from the same state everything sent
    agrees.  The response is status 200, Content-Type: text/plain and the
    greeting when the requests name a protocol version, and the greeting
    with no status and no header when they are in the HTTP/0.9 form. *)
Theorem GET_response_noninterference (r1 r2 : Request) (st1 st2 : State) :
  command r1 = "GET" -> command r2 = "GET" ->
  HTTP_0_9 r1 = HTTP_0_9 r2 ->
  respond r1 st1 = respond r2 st2
  /\ fst (process_request r1 st1) = fst (process_request r2 st1)
  /\ respond r1 st1
     = (if HTTP_0_9 r1
        then {| status := []; content_type := []; body := greeting |}
        else {| status := [200]; content_type := ["text/plain"]; body := greeting |}).
Proof.
  intros H1 H2 Hform. split; [| split].
  - rewrite (respond_GET r1 st1 H1), (respond_GET r2 st2 H2). now rewrite Hform.
  - rewrite (process_request_GET r1 st1 H1), (process_request_GET r2 st1 H2).
    now rewrite Hform.
  - exact (respond_GET r1 st1 H1).
Qed.

Lemma GET_response_noninterference_witness :
  respond (sample_request "GET" "/" [("Accept", "text/html")]) (sample_state ∅ [])
  = respond (sample_request "GET" "/other" [("Accept", "application/json")])
      (sample_state {[ "PORT" := "9090" ]} []).
Proof.
  apply (GET_response_noninterference
           (sample_request "GET" "/" [("Accept", "text/html")])
           (sample_request "GET" "/other" [("Accept", "application/json")])
           (sample_state ∅ []) (sample_state {[ "PORT" := "9090" ]} []));
    reflexivity.
Defined.

(** C4.  With no PORT in the environment the port resolved is 8080, and the
    one listening socket the script asks for is on 8080 (all interfaces);
    when the kernel grants it, the server is up on 8080. *)
Theorem default_port_8080 (st : State) :
  environ st !! "PORT" = None ->
  fst (PORT_value st) = inr 8080
  /\ PORT (final_state (python_app st)) = Some 8080
  /\ trace (final_state (python_app st))
     = (trace st ++ [EnvironGet "PORT"; SocketBind "" 8080])%list
  /\ (kernel_listen st 8080 = inr 8080 ->
      python_app st = Serving {| server_port := 8080 |} (final_state (python_app st))).
Proof.
  intros Henv.
  assert (Hres : resolved_port st = inr 8080) by (unfold resolved_port; now rewrite Henv).
  rewrite PORT_value_eq, python_app_eq, Hres. cbv zeta.
  split; [reflexivity |].
  unfold bind_outcome. change (port_in_range 8080) with true. cbv iota.
  destruct (kernel_listen st 8080) as [errno | bound] eqn:Hk;
    cbn [final_state PORT trace set_PORT record write_stdout];
    rewrite <- app_assoc; repeat split; try reflexivity.
  - discriminate.
  - intros [= ->]. reflexivity.
Qed.

Lemma default_port_8080_witness :
  PORT (final_state (python_app (sample_state ∅ []))) = Some 8080.
Proof.
  apply (default_port_8080 (sample_state ∅ [])). reflexivity.
Defined.

(** C5.  With PORT set to the decimal text of a port number N that the
    kernel grants, the port resolved is N, the one listening socket asked
    for is on N, and the server is up on N. *)
Theorem port_from_environment (st : State) (N : Z) :
  0 <= N <= 65535 ->
  environ st !! "PORT" = Some (str_of_int N) ->
  kernel_listen st N = inr N ->
  fst (PORT_value st) = inr N
  /\ python_app st = Serving {| server_port := N |} (final_state (python_app st))
  /\ PORT (final_state (python_app st)) = Some N
  /\ trace (final_state (python_app st))
     = (trace st ++ [EnvironGet "PORT"; SocketBind "" N])%list.
Proof.
  intros HN Henv Hk.
  assert (Hres : resolved_port st = inr N).
  { unfold resolved_port. rewrite Henv. now apply int_of_str_port. }
  assert (Hrange : port_in_range N = true) by (unfold port_in_range; lia).
  rewrite PORT_value_eq, python_app_eq, Hres. cbv zeta.
  unfold bind_outcome. rewrite Hrange, Hk.
  cbn [final_state PORT trace set_PORT record write_stdout fst].
  rewrite <- app_assoc. repeat split; reflexivity.
Qed.

Lemma port_from_environment_witness :
  python_app (sample_state {[ "PORT" := "9090" ]} [8080])
  = Serving {| server_port := 9090 |}
      (final_state (python_app (sample_state {[ "PORT" := "9090" ]} [8080]))).
Proof.
  apply (port_from_environment (sample_state {[ "PORT" := "9090" ]} [8080]) 9090);
    [lia | reflexivity | reflexivity].
Defined.

(** C6.  With PORT set to a string that [int] refuses, line 8 raises
    ValueError, nothing handles it, and the process exits with status 1
    having done nothing but read the environment: no socket is asked for,
    nothing is printed, and [PORT] gets no value, 8080 or other. *)
Theorem invalid_port_crashes (st : State) (s : string) (e : exception) :
  environ st !! "PORT" = Some s ->
  int_of_str s = inl e ->
  PORT_value st = (inl ValueError, record (EnvironGet "PORT") st)
  /\ python_app st = Exited 1 ValueError (record (EnvironGet "PORT") st).
Proof.
  intros Henv Hint.
  assert (Hres : resolved_port st = inl ValueError).
  { unfold resolved_port. rewrite Henv, Hint. f_equal. exact (int_of_str_raises s e Hint). }
  rewrite PORT_value_eq, python_app_eq, Hres. split; reflexivity.
Qed.

Lemma invalid_port_crashes_witness :
  python_app (sample_state {[ "PORT" := "eighty" ]} [])
  = Exited 1 ValueError (record (EnvironGet "PORT") (sample_state {[ "PORT" := "eighty" ]} [])).
Proof.
  apply (invalid_port_crashes (sample_state {[ "PORT" := "eighty" ]} []) "eighty" ValueError);
    reflexivity.
Defined.

(** C7.  When the constructor of the server raises at the port resolved
    (the port is out of range, or the kernel refuses the socket), nothing
    handles the exception: the process exits with status 1, the kernel was
    asked at most once, the startup message was not printed, and the serving
    loop is not entered. *)
Theorem bind_failure_is_fatal (st st1 : State) (p : Z) (e : exception) :
  PORT_value st = (inr p, st1) ->
  fst (HTTPServer_init ("", p) (set_PORT p st1)) = inl e ->
  python_app st = Exited 1 e (final_state (python_app st))
  /\ stdout (final_state (python_app st)) = stdout st
  /\ trace (final_state (python_app st))
     = (trace st ++ EnvironGet "PORT" :: (if port_in_range p then [SocketBind "" p] else []))%list.
Proof.
  rewrite PORT_value_eq. intros [= Hres <-] Hinit.
  rewrite HTTPServer_init_eq in Hinit. cbn [fst] in Hinit.
  change (bind_outcome (set_PORT p (record (EnvironGet "PORT") st)) p)
    with (bind_outcome st p) in Hinit.
  rewrite python_app_eq, Hres. cbv zeta.
  destruct (bind_outcome st p) as [e' | bound]; [| discriminate Hinit].
  injection Hinit as ->.
  cbn [final_state]. split; [reflexivity |].
  destruct (port_in_range p); cbn [stdout trace set_PORT record];
    (split; [reflexivity |]); [rewrite <- app_assoc |]; reflexivity.
Qed.

Lemma bind_failure_is_fatal_witness :
  python_app (sample_state ∅ [8080])
  = Exited 1 (OSError EADDRINUSE) (final_state (python_app (sample_state ∅ [8080]))).
Proof.
  apply (bind_failure_is_fatal (sample_state ∅ [8080])
           (record (EnvironGet "PORT") (sample_state ∅ [8080])) 8080 (OSError EADDRINUSE));
    reflexivity.
Defined.

(** C8, on a POST: two lines are written, the error and the request. *)
Lemma one_log_line_counterexample :
  stdout (snd (process_request (sample_request "POST" "/" []) (sample_state ∅ [])))
  = ("10.0.0.7 - code 501, message Unsupported method ('POST')" ++ LF)
    ++ ("10.0.0.7 - " ++ QUOTE ++ "POST / HTTP/1.1" ++ QUOTE ++ " 501 -" ++ LF)
  /\ count_char newline
       (stdout (snd (process_request (sample_request "POST" "/" []) (sample_state ∅ []))))
     = 2%nat.
Proof.
  rewrite process_request_other by discriminate. split; vm_compute; reflexivity.
Qed.

(** C8, as the code has it.  A GET writes one line to standard output: the
    client's address, then the summary of the request (the request line in
    quotes, the status 200, a dash).  Any other command, which the base
    class answers with 501, writes two: the error, then the summary of the
    request with status 501, each behind the client's address.  None of
    these lines holds a line end of its own when the address and the request
    line hold none. *)
Theorem log_lines_by_method (r : Request) (st : State) :
  stdout (snd (process_request r st))
  = (if String.eqb (command r) "GET"
     then stdout st ++ (fst (client_address r) ++ " - " ++ request_summary r "200") ++ LF
     else (stdout st
           ++ (fst (client_address r) ++ " - " ++ "code 501, message " ++ error_text r) ++ LF)
          ++ (fst (client_address r) ++ " - " ++ request_summary r "501") ++ LF)
  /\ (contains newline (fst (client_address r)) = false ->
      contains newline (requestline r) = false ->
      contains newline (fst (client_address r) ++ " - " ++ request_summary r "200") = false
      /\ contains newline (fst (client_address r) ++ " - " ++ request_summary r "501") = false
      /\ contains newline
           (fst (client_address r) ++ " - " ++ "code 501, message " ++ error_text r) = false).
Proof.
  split.
  - destruct (String.eqb_spec (command r) "GET") as [Hcmd | Hcmd].
    + rewrite (process_request_GET r st Hcmd). reflexivity.
    + rewrite (process_request_other r st Hcmd). reflexivity.
  - intros Ha Hl. unfold request_summary, error_text.
    rewrite !contains_append, Ha, Hl, repr_str_no_newline. repeat split.
Qed.

(** C9.  The environment is read once, at the start, whether startup
    succeeds or not.  Once the server is up, [PORT] holds the value resolved
    then, and after any sequence of connections it still does, with no
    further read of the environment; the same holds request by request. *)
Theorem port_read_once_and_kept (st : State) (connections : list Request) :
  match python_app st with
  | Serving httpd st1 =>
      exists p,
        fst (PORT_value st) = inr p
        /\ PORT st1 = Some p
        /\ PORT (snd (serve_forever connections st1)) = Some p
        /\ environ_reads (trace (snd (serve_forever connections st1)))
           = S (environ_reads (trace st))
  | Exited _ _ st1 => environ_reads (trace st1) = S (environ_reads (trace st))
  end
  /\ (forall r s, PORT (snd (process_request r s)) = PORT s
                  /\ trace (snd (process_request r s)) = trace s).
Proof.
  split.
  - rewrite PORT_value_eq, python_app_eq.
    destruct (resolved_port st) as [e | p]; cbv zeta.
    + cbn [trace record]. rewrite environ_reads_app. cbn [environ_reads]. lia.
    + destruct (bind_outcome st p) as [e | bound].
      * destruct (port_in_range p); cbn [trace set_PORT record];
          rewrite ?environ_reads_app; cbn [environ_reads]; lia.
      * exists p. destruct (serve_forever_frame connections
                    (write_stdout (startup_line p ++ LF)
                       (record (SocketBind "" p)
                          (set_PORT p (record (EnvironGet "PORT") st))))) as [-> ->].
        cbn [fst PORT trace set_PORT record write_stdout].
        rewrite !environ_reads_app. cbn [environ_reads].
        repeat split; try reflexivity. lia.
  - intros r s. destruct (process_request_frame r s) as (HP & Ht & _). now split.
Qed.

(** C10.  With PORT set to the empty string there is no fall back to 8080:
    line 8 raises ValueError and the process exits with status 1 before
    anything else happens. *)
Theorem empty_port_crashes (st : State) :
  environ st !! "PORT" = Some "" ->
  fst (PORT_value st) = inl ValueError
  /\ fst (PORT_value st) <> inr 8080
  /\ python_app st = Exited 1 ValueError (record (EnvironGet "PORT") st).
Proof.
  intros Henv.
  assert (Hres : resolved_port st = inl ValueError)
    by (unfold resolved_port; now rewrite Henv).
  rewrite PORT_value_eq, python_app_eq, Hres. cbn [fst].
  split; [reflexivity |]. split; [discriminate | reflexivity].
Qed.

Lemma empty_port_crashes_witness :
  python_app (sample_state {[ "PORT" := "" ]} [])
  = Exited 1 ValueError (record (EnvironGet "PORT") (sample_state {[ "PORT" := "" ]} [])).
Proof.
  apply (empty_port_crashes (sample_state {[ "PORT" := "" ]} [])). reflexivity.
Defined.

(** * Further properties *)

Lemma append_assoc (a b c : string) : (a ++ b) ++ c = a ++ b ++ c.
Proof.
  induction a as [| x a IH]; [reflexivity |].
  change (String x ((a ++ b) ++ c) = String x (a ++ b ++ c)). now f_equal.
Qed.

(** ** Line 8: what texts resolve to a port *)

Lemma skip_spaces_blank_app a s :
  blank a = true -> skip_spaces (a ++ s) = skip_spaces s.
Proof.
  unfold blank. induction a as [| c a IH]; [reflexivity |].
  cbn [all_chars]. intros [Hc Ha]%andb_prop.
  change (skip_spaces (String c (a ++ s)) = skip_spaces s).
  cbn [skip_spaces]. rewrite Hc. exact (IH Ha).
Qed.

Lemma skip_spaces_blank a : blank a = true -> skip_spaces a = "".
Proof.
  intros Ha. rewrite <- (append_nil_r a). now rewrite skip_spaces_blank_app.
Qed.

Lemma int_of_str_blank_app a s :
  blank a = true -> int_of_str (a ++ s) = int_of_str s.
Proof.
  intros Ha. unfold int_of_str. now rewrite skip_spaces_blank_app.
Qed.

Lemma scan_digits_blank b acc k :
  blank b = true -> scan_digits b false acc k = Some (acc, k, b).
Proof.
  destruct b as [| c b]; [reflexivity |].
  unfold blank. cbn [all_chars]. intros [Hc _]%andb_prop.
  cbn [scan_digits].
  destruct c as [[] [] [] [] [] [] [] []]; try discriminate Hc; reflexivity.
Qed.

(** A literal that starts with a digit and scans up to blanks is read as
    the value scanned. *)
Lemma int_of_str_scanned_blank d t acc digits rest :
  0 <= d <= 9 ->
  scan_digits (String (digit_char d) t) false 0 0 = Some (acc, digits, rest) ->
  skip_spaces rest = "" ->
  (digits <> 0)%N -> (digits <= max_str_digits)%N ->
  int_of_str (String (digit_char d) t) = inr acc.
Proof.
  intros Hd Hscan Hrest Hnz Hmax.
  assert (Hz : (digits =? 0)%N = false) by (apply N.eqb_neq; exact Hnz).
  assert (Hm : (max_str_digits <? digits)%N = false) by (apply N.ltb_ge; exact Hmax).
  assert (Hc : d = 0 \/ d = 1 \/ d = 2 \/ d = 3 \/ d = 4 \/ d = 5 \/ d = 6
               \/ d = 7 \/ d = 8 \/ d = 9) by lia.
  repeat (destruct Hc as [-> | Hc];
          [ cbv -[scan_digits N.eqb N.ltb Z.opp max_str_digits] in *;
            rewrite Hscan, Hz, Hm, Hrest; reflexivity |]).
  subst d. cbv -[scan_digits N.eqb N.ltb Z.opp max_str_digits] in *.
  rewrite Hscan, Hz, Hm, Hrest. reflexivity.
Qed.

Lemma digits_of_app fuel : forall n acc rest,
  digits_of fuel n (acc ++ rest) = digits_of fuel n acc ++ rest.
Proof.
  induction fuel as [| fuel IH]; intros n acc rest; cbn [digits_of].
  - reflexivity.
  - destruct (n <? 10); [reflexivity |].
    rewrite <- IH. reflexivity.
Qed.

Lemma int_of_str_padded (a b : string) (n : Z) :
  blank a = true -> blank b = true -> 0 <= n <= 65535 ->
  int_of_str (a ++ str_of_int n ++ b) = inr n.
Proof.
  intros Ha Hb Hn. rewrite int_of_str_blank_app by exact Ha.
  unfold str_of_int. destruct (Z.ltb_spec n 0) as [Hneg | _]; [lia |].
  rewrite <- digits_of_app. change ("" ++ b) with b.
  destruct (digits_of_head (Z.to_nat n) n b ltac:(lia)) as (d & t & Hd & Heq).
  pose proof (scan_digits_of (Z.to_nat n) n b 0 0 ltac:(lia)) as Hscan.
  rewrite (scan_digits_blank b) in Hscan by exact Hb.
  rewrite Heq in *.
  assert (Hm : 0 <= n < 10 ^ Z.of_nat 5) by (change (10 ^ Z.of_nat 5) with 100000; lia).
  pose proof (ndigits_bound 4 (Z.to_nat n) n Hm).
  pose proof (ndigits_pos (Z.to_nat n) n).
  replace (0 * 10 ^ Z.of_N (ndigits (Z.to_nat n) n) + n) with n in Hscan by lia.
  eapply int_of_str_scanned_blank;
    [exact Hd | exact Hscan | now apply skip_spaces_blank | lia |].
  unfold max_str_digits. lia.
Qed.

(** X1.  Blanks around the number do not matter to line 8: with PORT set to
    the decimal text of a port number between blanks (spaces, tabs, a line
    end left by a file or a shell), the port resolved is that number. *)
Theorem padded_port_text_resolves (st : State) (a b : string) (N : Z) :
  blank a = true -> blank b = true -> 0 <= N <= 65535 ->
  environ st !! "PORT" = Some (a ++ str_of_int N ++ b) ->
  fst (PORT_value st) = inr N
  /\ PORT (final_state (python_app st)) = Some N.
Proof.
  intros Ha Hb HN Henv.
  assert (Hres : resolved_port st = inr N).
  { unfold resolved_port. rewrite Henv. now apply int_of_str_padded. }
  rewrite PORT_value_eq, python_app_eq, Hres. cbv zeta. split; [reflexivity |].
  destruct (bind_outcome st N); [destruct (port_in_range N) |]; reflexivity.
Qed.

Lemma padded_port_text_resolves_witness :
  PORT (final_state (python_app
          (sample_state {[ "PORT" := " 9090" ++ LF ]} []))) = Some 9090.
Proof.
  apply (padded_port_text_resolves
           (sample_state {[ "PORT" := " 9090" ++ LF ]} []) " " LF 9090);
    [reflexivity | reflexivity | lia | reflexivity].
Defined.

(** X2.  A value of PORT with any character that is no blank, sign, digit
    or underscore ends the process at line 8: ValueError, exit status 1,
    nothing done but the environment read. *)
Theorem non_numeric_port_crashes (st : State) (s : string) :
  environ st !! "PORT" = Some s ->
  all_chars literal_char s = false ->
  python_app st = Exited 1 ValueError (record (EnvironGet "PORT") st).
Proof.
  intros Henv Hs.
  assert (Hres : resolved_port st = inl ValueError).
  { unfold resolved_port. rewrite Henv. now apply int_of_str_non_numeric. }
  now rewrite python_app_eq, Hres.
Qed.

Lemma non_numeric_port_crashes_witness :
  python_app (sample_state {[ "PORT" := "80a" ]} [])
  = Exited 1 ValueError (record (EnvironGet "PORT") (sample_state {[ "PORT" := "80a" ]} [])).
Proof.
  apply (non_numeric_port_crashes (sample_state {[ "PORT" := "80a" ]} []) "80a");
    reflexivity.
Defined.

(** X3.  A number outside 0-65535 in PORT is accepted by line 8 and refused
    by the socket layer before the kernel is asked: OverflowError, exit
    status 1, [PORT] set, no socket request in the trace, nothing printed. *)
Theorem port_out_of_range_is_fatal (st : State) (N : Z) :
  environ st !! "PORT" = Some (str_of_int N) ->
  - 10 ^ 4300 < N < 10 ^ 4300 ->
  N < 0 \/ 65535 < N ->
  python_app st
  = Exited 1 OverflowError (set_PORT N (record (EnvironGet "PORT") st)).
Proof.
  intros Henv Hsize Hout.
  assert (Hres : resolved_port st = inr N).
  { unfold resolved_port. rewrite Henv.
    apply (int_of_str_str_of_int 4299); [lia |]. exact Hsize. }
  assert (Hrange : port_in_range N = false) by (unfold port_in_range; lia).
  rewrite python_app_eq, Hres. cbv zeta. unfold bind_outcome. now rewrite Hrange.
Qed.

Lemma port_out_of_range_is_fatal_witness :
  python_app (sample_state {[ "PORT" := "-1" ]} [])
  = Exited 1 OverflowError
      (set_PORT (-1) (record (EnvironGet "PORT") (sample_state {[ "PORT" := "-1" ]} []))).
Proof.
  apply (port_out_of_range_is_fatal (sample_state {[ "PORT" := "-1" ]} []) (-1));
    [reflexivity | split; reflexivity | left; reflexivity].
Defined.

(** X4.  When startup succeeds it did exactly this: one read of the
    environment, one request for a listening socket on all interfaces at
    the value of [PORT], and then the startup line, which names the value of
    [PORT], not the port the socket ended up on (with PORT at 0 the two
    differ). *)
Theorem successful_startup_shape (st st1 : State) (httpd : HTTPServer) :
  python_app st = Serving httpd st1 ->
  exists p,
    fst (PORT_value st) = inr p
    /\ kernel_listen st p = inr (server_port httpd)
    /\ trace st1 = (trace st ++ [EnvironGet "PORT"; SocketBind "" p])%list
    /\ stdout st1
       = stdout st ++ ("Starting Python web server on port " ++ str_of_int p ++ "...") ++ LF.
Proof.
  rewrite python_app_eq, PORT_value_eq.
  destruct (resolved_port st) as [e | p]; [discriminate |]. cbv zeta.
  unfold bind_outcome.
  destruct (port_in_range p); [| discriminate].
  destruct (kernel_listen st p) as [errno | bound] eqn:Hk; [discriminate |].
  intros [= <- <-]. exists p. rewrite Hk.
  cbn [trace stdout write_stdout record set_PORT]. rewrite <- app_assoc.
  split; [reflexivity |]. split; [reflexivity |]. split; reflexivity.
Qed.

Lemma successful_startup_shape_witness :
  exists p,
    fst (PORT_value (sample_state {[ "PORT" := "0" ]} [])) = inr p
    /\ kernel_listen (sample_state {[ "PORT" := "0" ]} []) p = inr 49152
    /\ trace (final_state (python_app (sample_state {[ "PORT" := "0" ]} [])))
       = (trace (sample_state {[ "PORT" := "0" ]} [])
          ++ [EnvironGet "PORT"; SocketBind "" p])%list
    /\ stdout (final_state (python_app (sample_state {[ "PORT" := "0" ]} [])))
       = stdout (sample_state {[ "PORT" := "0" ]} [])
         ++ ("Starting Python web server on port " ++ str_of_int p ++ "...") ++ LF.
Proof.
  apply (successful_startup_shape (sample_state {[ "PORT" := "0" ]} [])
           (final_state (python_app (sample_state {[ "PORT" := "0" ]} [])))
           {| server_port := 49152 |}).
  reflexivity.
Defined.

(** X7.  What a GET is sent.  When the request names a protocol version:
    one head, with the status line HTTP/1.0 200 OK and the headers Server,
    Date and Content-Type in this order, then the greeting in one write.
    When the request is in the HTTP/0.9 form: the greeting alone.  Either
    way no Content-Length and no Connection header is sent. *)
Theorem GET_response_head (r : Request) (st : State) :
  command r = "GET" ->
  fst (process_request r st)
  = (if HTTP_0_9 r then [Body greeting]
     else [Head [StatusLine "HTTP/1.0" 200 "OK";
                 HeaderLine "Server" ("BaseHTTP/0.6 Python/" ++ python_version st);
                 HeaderLine "Date" (clock st);
                 HeaderLine "Content-Type" "text/plain";
                 BlankLine];
           Body greeting])
  /\ header_values "Content-Length" (head_lines (fst (process_request r st))) = []
  /\ header_values "Connection" (head_lines (fst (process_request r st))) = [].
Proof.
  intros Hcmd. rewrite (process_request_GET r st Hcmd).
  destruct (HTTP_0_9 r); repeat split.
Qed.

Lemma GET_response_head_witness :
  header_values "Content-Length"
    (head_lines (fst (process_request (sample_request "GET" "/" []) (sample_state ∅ []))))
  = [].
Proof.
  apply (GET_response_head (sample_request "GET" "/" []) (sample_state ∅ [])).
  reflexivity.
Defined.

(** X8.  Handling never raises, whatever the request: the formats handed to
    [log_message] fit their arguments, and [end_headers] finds a head to
    end whenever the request names a protocol version.  It leaves the
    connection marked for closing and no head line unsent: the buffer is
    empty, or was never made when the request is in the HTTP/0.9 form. *)
Theorem handler_never_raises (r : Request) (st : State) :
  fst (handle log_message SimpleHandler (connection_start r st)) = inr tt
  /\ close_connection (self (snd (handle log_message SimpleHandler (connection_start r st))))
     = true
  /\ headers_buffer (self (snd (handle log_message SimpleHandler (connection_start r st))))
     = (if HTTP_0_9 r then None else Some []).
Proof.
  destruct (String.eqb_spec (command r) "GET") as [Hcmd | Hcmd];
    destruct (HTTP_0_9 r) eqn:Hform.
  - rewrite (handle_GET_old r st Hcmd Hform). repeat split.
  - rewrite (handle_GET r st Hcmd Hform). repeat split.
  - rewrite (handle_other_old r st Hcmd Hform). repeat split.
  - rewrite (handle_other r st Hcmd Hform). repeat split.
Qed.

(** Helpers for X10: what a request is sent depends on the process only
    through the clock and the interpreter version, which handling keeps. *)
Lemma process_request_environment r st :
  clock (snd (process_request r st)) = clock st
  /\ python_version (snd (process_request r st)) = python_version st
  /\ kernel_listen (snd (process_request r st)) = kernel_listen st.
Proof.
  destruct (String.eqb_spec (command r) "GET") as [Hcmd | Hcmd].
  - rewrite process_request_GET by exact Hcmd. repeat split.
  - rewrite process_request_other by exact Hcmd. repeat split.
Qed.

Lemma process_request_sent r st st' :
  clock st' = clock st -> python_version st' = python_version st ->
  fst (process_request r st') = fst (process_request r st).
Proof.
  intros Hc Hv. destruct (String.eqb_spec (command r) "GET") as [Hcmd | Hcmd].
  - rewrite !process_request_GET by exact Hcmd. cbn [fst]. unfold ok_head.
    now rewrite Hc, Hv.
  - rewrite !process_request_other by exact Hcmd. cbn [fst]. unfold error_head.
    now rewrite Hc, Hv.
Qed.

Lemma serve_forever_fst_cons r rest st :
  fst (serve_forever (r :: rest) st)
  = fst (process_request r st) :: fst (serve_forever rest (snd (process_request r st))).
Proof.
  cbn [serve_forever]. destruct (process_request r st) as [sent st1].
  cbn [fst snd]. destruct (serve_forever rest st1); reflexivity.
Qed.

Lemma serve_forever_sent connections : forall st st',
  clock st' = clock st -> python_version st' = python_version st ->
  fst (serve_forever connections st')
  = map (fun r => fst (process_request r st)) connections.
Proof.
  induction connections as [| r rest IH]; intros st st' Hc Hv; [reflexivity |].
  rewrite serve_forever_fst_cons. cbn [map]. f_equal.
  - now apply process_request_sent.
  - destruct (process_request_environment r st') as (Hc' & Hv' & _).
    apply IH; congruence.
Qed.

(** X10.  Requests do not affect each other's responses: the status,
    Content-Type and body each connection of a sequence is sent are the ones
    its request would get as the first. *)
Theorem responses_independent_of_history (connections : list Request) (st : State) :
  map response_of (fst (serve_forever connections st))
  = map (fun r => respond r st) connections.
Proof.
  rewrite (serve_forever_sent connections st st) by reflexivity.
  rewrite map_map. reflexivity.
Qed.

(** Helper for X11. *)
Lemma process_request_stdout r st :
  stdout (snd (process_request r st)) = stdout st ++ log_text r.
Proof.
  unfold log_text. destruct (String.eqb_spec (command r) "GET") as [Hcmd | Hcmd].
  - now rewrite process_request_GET by exact Hcmd.
  - rewrite process_request_other by exact Hcmd.
    cbn [snd stdout write_stdout]. now rewrite append_assoc.
Qed.

(** X11.  After any sequence of connections, standard output holds what it
    held before, then the log lines of the requests in their order of
    arrival: one line for a GET, two for any other command. *)
Theorem log_after_serving (connections : list Request) (st : State) :
  stdout (snd (serve_forever connections st)) = stdout st ++ log_texts connections.
Proof.
  revert st. induction connections as [| r rest IH]; intros st.
  - cbn [serve_forever snd log_texts]. now rewrite append_nil_r.
  - rewrite serve_forever_cons, IH, process_request_stdout.
    cbn [log_texts]. now rewrite append_assoc.
Qed.

(** X9.  A HEAD request is answered like any command without a method, but
    gets no body.  When it names a protocol version it is sent the head of
    the 501 answer, whose Content-Length header states the length of the
    error page that is not sent; when it is in the HTTP/0.9 form it is sent
    nothing at all. *)
Theorem HEAD_gets_no_body (r : Request) (st : State) :
  command r = "HEAD" ->
  body (respond r st) = ""
  /\ (if HTTP_0_9 r then fst (process_request r st) = []
      else status (respond r st) = [501]
           /\ header_values "Content-Length" (head_lines (fst (process_request r st)))
              = [str_of_int (len (error_body r))])
  /\ 0 < len (error_body r).
Proof.
  intros Hcmd. unfold respond.
  rewrite process_request_other by (rewrite Hcmd; discriminate).
  rewrite Hcmd. cbn [String.eqb Ascii.eqb Bool.eqb].
  split; [destruct (HTTP_0_9 r); reflexivity |].
  split; [destruct (HTTP_0_9 r); [reflexivity | split; reflexivity] |].
  pose proof (error_body_first r) as Hfirst. unfold len.
  destruct (error_body r); [discriminate Hfirst | cbn [String.length]; lia].
Qed.

Lemma HEAD_gets_no_body_witness :
  body (respond (sample_request "HEAD" "/" []) (sample_state ∅ [])) = "".
Proof.
  apply (HEAD_gets_no_body (sample_request "HEAD" "/" []) (sample_state ∅ [])).
  reflexivity.
Defined.

(** X5.  When startup fails, the exit status is 1, nothing was printed to
    standard output, and the exception is a ValueError (line 8), an
    OverflowError or an OSError (the server's constructor). *)
Theorem failed_startup_prints_nothing (st st1 : State) (status : Z) (e : exception) :
  python_app st = Exited status e st1 ->
  status = 1
  /\ stdout st1 = stdout st
  /\ (e = ValueError \/ e = OverflowError \/ exists errno, e = OSError errno).
Proof.
  rewrite python_app_eq. unfold resolved_port.
  destruct (environ st !! "PORT") as [s |].
  - destruct (int_of_str s) as [e' | p] eqn:Hint.
    + intros [= <- <- <-]. pose proof (int_of_str_raises s e' Hint). auto.
    + cbv zeta. unfold bind_outcome. destruct (port_in_range p).
      * destruct (kernel_listen st p) as [errno | bound]; [| discriminate].
        intros [= <- <- <-]. repeat split. right. right. now exists errno.
      * intros [= <- <- <-]. auto.
  - cbv zeta. unfold bind_outcome. change (port_in_range 8080) with true. cbv iota.
    destruct (kernel_listen st 8080) as [errno | bound]; [| discriminate].
    intros [= <- <- <-]. repeat split. right. right. now exists errno.
Qed.

Lemma failed_startup_prints_nothing_witness :
  stdout (final_state (python_app (sample_state ∅ [8080]))) = stdout (sample_state ∅ [8080]).
Proof.
  apply (failed_startup_prints_nothing (sample_state ∅ [8080])
           (final_state (python_app (sample_state ∅ [8080]))) 1 (OSError EADDRINUSE)).
  reflexivity.
Defined.
